(** * Length, counting and n-gram predictors of SGNMT
    (cam/sgnmt/predictors/length.py), as a shallow embedding.

    Python floats are kept abstract behind the interface [PyFloat]: the
    structural results hold for every float semantics, and the concrete
    results are checked at the instance [xR] (real numbers extended with
    the infinities and NaN) given at the end of the definitions. *)

From Stdlib Require Import ZArith QArith List String Ascii Bool Lia Reals Lra.
From stdpp Require Import base gmap list strings.

Import ListNotations.
Open Scope Z_scope.

(** ** Python floats *)

(** The float operations the module uses: arithmetic, [np.log],
    [np.exp], [math.exp] (None where it raises OverflowError: a finite
    argument whose exponential exceeds the largest double),
    [scipy.special.gammaln],
    [scipy.special.logsumexp], the comparisons [<], [<=] and [==], [int()] on a
    float (None where Python raises), float literals and NaN. Equality of floats
    inside tuples ([state1 == state2]) goes through [F_eq_dec]: CPython
    compares tuple items with an identity short-cut, and the states compared
    share their float objects. *)
Class PyFloat (F : Type) := {
  F_eq_dec :: EqDecision F;
  NEG_INF : F;
  fofQ : Q -> F;
  fadd : F -> F -> F;
  fsub : F -> F -> F;
  fmul : F -> F -> F;
  fdiv : F -> F -> F;
  fopp : F -> F;
  flog : F -> F;
  fexp : F -> F;
  math_exp : F -> option F;
  NAN : F;
  gammaln : F -> F;
  logsumexp : list F -> F;
  fltb : F -> F -> bool;
  fleb : F -> F -> bool;
  feqb : F -> F -> bool;
  ftrunc : F -> option Z
}.

Section Floats.
Context {F : Type} `{PyFloat F}.

(** An int converted to float. *)
Definition fofZ (z : Z) : F := fofQ (inject_Z z).

(** Builtin [max(a, b)] and [min(a, b)]: the first argument unless the
    second is strictly larger (resp. smaller). *)
Definition fmax (a b : F) : F := if fltb a b then b else a.
Definition fmin (a b : F) : F := if fltb b a then b else a.

(** Builtin [sum(xs)]: starts from the int 0. *)
Definition py_sum (xs : list F) : F := fold_left fadd xs (fofZ 0).

(** [np.dot] of two 1-d arrays; a length mismatch raises ValueError. *)
Definition np_dot (xs ys : list F) : option F :=
  if Nat.eqb (length xs) (length ys)
  then Some (fold_left fadd (zip_with fmul xs ys) (fofZ 0))
  else None.

End Floats.

(** ** Reserved vocabulary ids *)

(** Modelled from the spec: the reserved ids of [utils] (UNK, start of
    sequence, end of sequence), with the values of SGNMT's default
    indexing. *)
Definition UNK_ID : Z := 0.
Definition GO_ID : Z := 1.
Definition EOS_ID : Z := 2.

(** ** Python strings *)

(** A Python [str] as the sequence of its Unicode code points: the files
    are read in text mode, so each line the code handles is such a
    sequence. *)
Definition pystr := list Z.

(** [ord(c)] of an ASCII character, and a [str] literal written with
    ASCII characters. *)
Definition ord (a : ascii) : Z := Z.of_nat (nat_of_ascii a).
Definition py_str (s : string) : pystr := map ord (list_ascii_of_string s).

(** The code points [str.isspace] accepts (Unicode 14.0, as in Python
    3.11); [str.split()] and [str.strip()] split at and remove exactly
    these. *)
Definition py_space_chars : list Z :=
  [9; 10; 11; 12; 13; 28; 29; 30; 31; 32; 133; 160; 5760;
   8192; 8193; 8194; 8195; 8196; 8197; 8198; 8199; 8200; 8201; 8202;
   8232; 8233; 8239; 8287; 12288].

Definition is_py_space (c : Z) : bool := existsb (Z.eqb c) py_space_chars.

Fixpoint drop_while (p : Z -> bool) (l : list Z) : list Z :=
  match l with
  | [] => []
  | c :: l' => if p c then drop_while p l' else l
  end.

(** Removes the leading and trailing code points satisfying [p]. *)
Definition strip_by (p : Z -> bool) (l : list Z) : list Z :=
  rev (drop_while p (rev (drop_while p l))).

(** [s.strip()] *)
Definition py_strip (s : pystr) : pystr := strip_by is_py_space s.

Fixpoint split_ws_aux (l cur : list Z) : list pystr :=
  match l with
  | [] => match cur with [] => [] | _ => [rev cur] end
  | c :: l' =>
      if is_py_space c then
        match cur with
        | [] => split_ws_aux l' []
        | _ => rev cur :: split_ws_aux l' []
        end
      else split_ws_aux l' (c :: cur)
  end.

(** [s.split()]: the maximal runs of non-whitespace code points. *)
Definition py_split (s : pystr) : list pystr := split_ws_aux s [].

Fixpoint split_on_aux (sep : Z) (l cur : list Z) : list pystr :=
  match l with
  | [] => [rev cur]
  | c :: l' =>
      if Z.eqb c sep then rev cur :: split_on_aux sep l' []
      else split_on_aux sep l' (c :: cur)
  end.

(** [s.split(sep)] for a one-character separator. *)
Definition py_split_on (sep : Z) (s : pystr) : list pystr := split_on_aux sep s [].

(** [s.count(c)] for a one-character [c]. *)
Definition py_count (c : Z) (s : pystr) : nat := length (List.filter (Z.eqb c) s).

(** [c in s] for a one-character [c]. *)
Definition py_contains (c : Z) (s : pystr) : bool := existsb (Z.eqb c) s.

(** *** [int()] and [float()] on a [str] *)

(** The decimal digits of Unicode 14.0 (category Nd, as in Python 3.11):
    the first code point of each block of ten consecutive digits 0-9. *)
Definition decimal_blocks : list Z :=
  [48; 1632; 1776; 1984; 2406; 2534; 2662; 2790; 2918; 3046; 3174; 3302;
   3430; 3558; 3664; 3792; 3872; 4160; 4240; 6112; 6160; 6470; 6608; 6784;
   6800; 6992; 7088; 7232; 7248; 42528; 43216; 43264; 43472; 43504; 43600;
   44016; 65296; 66720; 68912; 69734; 69872; 69942; 70096; 70384; 70736;
   70864; 71248; 71360; 71472; 71904; 72016; 72784; 73040; 73120; 92768;
   92864; 93008; 120782; 120792; 120802; 120812; 120822; 123200; 123632;
   125264; 130032].

(** [Py_UNICODE_TODECIMAL]: the value of a decimal digit. *)
Definition py_decimal (c : Z) : option Z :=
  match List.find (fun b => (b <=? c) && (c <? b + 10)) decimal_blocks with
  | Some b => Some (c - b)
  | None => None
  end.

(** [_PyUnicode_TransformDecimalAndSpaceToASCII], which [int()] and
    [float()] apply to a [str] first: code points below 127 are kept,
    other whitespace becomes a blank, other decimal digits their ASCII
    digit, and anything else ['?'] (Python also cuts the string there;
    no literal admits ['?'] either way). *)
Definition to_ascii_digit_space (c : Z) : Z :=
  if c <? 127 then c
  else if is_py_space c then 32
  else match py_decimal c with Some d => 48 + d | None => 63 end.

(** [Py_ISSPACE], the whitespace the C number parsers skip. *)
Definition is_c_space (c : Z) : bool := ((9 <=? c) && (c <=? 13)) || (c =? 32).

Definition ascii_digit (c : Z) : option Z :=
  if (48 <=? c) && (c <=? 57) then Some (c - 48) else None.

Definition is_ascii_digit (c : Z) : bool :=
  match ascii_digit c with Some _ => true | None => false end.

(** An optional sign: whether it is ['-'], and the rest. *)
Definition sign_split (l : list Z) : bool * list Z :=
  match l with
  | c :: l' => if c =? 45 then (true, l') else if c =? 43 then (false, l') else (false, l)
  | [] => (false, [])
  end.

Definition digits_value (ds : list Z) : Z := fold_left (fun acc d => acc * 10 + d) ds 0.

(** The digits of an [int()] literal in base 10: ASCII digits with single
    underscores between them ([1_000]); None if the list is not of that
    form. *)
Fixpoint digits_us (l : list Z) : option (list Z) :=
  match l with
  | [] => None
  | c :: l' =>
      match ascii_digit c with
      | None => None
      | Some d =>
          match l' with
          | [] => Some [d]
          | u :: l'' =>
              if u =? 95 then option_map (cons d) (digits_us l'')
              else option_map (cons d) (digits_us l')
          end
      end
  end.

(** [int(s)] ([PyLong_FromUnicodeObject] in base 10): surrounding
    whitespace, an optional sign and the digits; None where Python raises
    ValueError. *)
Definition py_int (s : pystr) : option Z :=
  let (neg, l) := sign_split (strip_by is_c_space (map to_ascii_digit_space s)) in
  option_map (fun ds => if neg then - digits_value ds else digits_value ds) (digits_us l).

(** The underscore rule of [float()] ([_Py_string_to_number_with_underscores]):
    every ['_'] stands between two ASCII digits; the underscores are then
    removed. [prev] is the code point before [l] (0 at the start). *)
Fixpoint remove_underscores (prev : Z) (l : list Z) : option (list Z) :=
  match l with
  | [] => if prev =? 95 then None else Some []
  | c :: l' =>
      if c =? 95 then (if is_ascii_digit prev then remove_underscores c l' else None)
      else if (prev =? 95) && negb (is_ascii_digit c) then None
      else option_map (cons c) (remove_underscores c l')
  end.

Fixpoint digit_prefix (l : list Z) : list Z :=
  match l with
  | c :: l' => if is_ascii_digit c then c :: digit_prefix l' else []
  | [] => []
  end.

(** [m * 10 ^ k] as a rational. *)
Definition q_scale (m k : Z) : Q :=
  if 0 <=? k then inject_Z (m * 10 ^ k) else Qmake m (Z.to_pos (10 ^ (- k))).

(** What [_Py_dg_strtod] reads when it must read the whole unsigned rest:
    [digits [. digits] [(e|E) [sign] digits]] with at least one digit
    before the exponent; the exact decimal value. *)
Definition decimal_lit (l : list Z) : option Q :=
  let ip := digit_prefix l in
  let r1 := drop (length ip) l in
  let '(fp, r2) := match r1 with
                   | c :: r => if c =? 46 then (digit_prefix r, drop (length (digit_prefix r)) r)
                               else ([], r1)
                   | [] => ([], [])
                   end in
  let mant := digits_value (map (fun c => c - 48) (ip ++ fp)) in
  if (length ip + length fp =? 0)%nat then None
  else
    match r2 with
    | [] => Some (q_scale mant (- Z.of_nat (length fp)))
    | e :: r3 =>
        if (e =? 101) || (e =? 69) then
          let (eneg, r4) := sign_split r3 in
          if (0 <? length r4)%nat && forallb is_ascii_digit r4 then
            let ev := digits_value (map (fun c => c - 48) r4) in
            Some (q_scale mant ((if eneg then - ev else ev) - Z.of_nat (length fp)))
          else None
        else None
    end.

Definition ascii_lower (c : Z) : Z := if (65 <=? c) && (c <=? 90) then c + 32 else c.

(** The literals of a float: an infinity, a NaN or a decimal number. *)
Inductive float_lit := FLInf | FLNaN | FLNum (q : Q).

(** [_Py_parse_inf_or_nan] on the whole unsigned rest: [inf], [infinity]
    or [nan] in any case. *)
Definition inf_nan_lit (l : list Z) : option float_lit :=
  match map ascii_lower l with
  | [105; 110; 102] | [105; 110; 102; 105; 110; 105; 116; 121] => Some FLInf
  | [110; 97; 110] => Some FLNaN
  | _ => None
  end.

(** The literal [float(s)] reads ([PyFloat_FromString]): whether it is
    negative, and its unsigned value; None where Python raises
    ValueError. *)
Definition py_float_lit (s : pystr) : option (bool * float_lit) :=
  match remove_underscores 0 (map to_ascii_digit_space s) with
  | None => None
  | Some l =>
      let (neg, l') := sign_split (strip_by is_c_space l) in
      match strip_by is_c_space l with
      | [] => None
      | _ =>
          match inf_nan_lit l' with
          | Some k => Some (neg, k)
          | None => option_map (fun q => (neg, FLNum q)) (decimal_lit l')
          end
      end
  end.

(** [float(s)]: [fofQ] rounds the exact decimal value. [_Py_dg_strtod]
    rounds the unsigned value and applies the sign after; rounding to
    nearest is symmetric and depends on the rational number only, so the
    signed value is rounded here, in lowest terms, except that ["-0"]
    keeps its sign ([-0.0]). ["-inf"] is [NEG_INF]. *)
Definition py_float `{PyFloat F} (s : pystr) : option F :=
  option_map (fun nk : bool * float_lit =>
                let '(neg, k) := nk in
                match k with
                | FLInf => if neg then NEG_INF else fopp NEG_INF
                | FLNaN => if neg then fopp NAN else NAN
                | FLNum q =>
                    if neg then (if Qeq_bool q 0 then fopp (fofQ 0) else fofQ (Qred (- q)))
                    else fofQ (Qred q)
                end)
             (py_float_lit s).

(** ** The predictors *)

Section Model.
Context {F : Type} `{PyFloat F}.

(** Python [range(a, b)]. *)
Definition py_range (a b : Z) : list Z :=
  map (fun i => a + Z.of_nat i) (seq 0 (Z.to_nat (b - a))).

(** [l[-k:]] for [k >= 0]: [-0] is [0], so [k = 0] keeps the whole list. *)
Definition py_tail_slice {A} (l : list A) (k : nat) : list A :=
  match k with
  | O => l
  | S _ => drop (length l - k) l
  end.

(** [l[-k]] for [k >= 1]; None where Python raises IndexError. *)
Definition py_index_neg {A} (l : list A) (k : nat) : option A :=
  if (k <=? length l)%nat then nth_error l (length l - k) else None.

Fixpoint map_option {A B} (f : A -> option B) (l : list A) : option (list B) :=
  match l with
  | [] => Some []
  | x :: l' =>
      match f x with
      | Some y => option_map (cons y) (map_option f l')
      | None => None
      end
  end.

(** A posterior: vocabulary id to log-probability. *)
Local Abbreviation posterior := (gmap Z F).

(** Truth value of [d] in [if d:] for a dict [d] fetched with [.get]. *)
Definition dict_truthy {K} `{Countable K} (o : option (gmap K F)) : bool :=
  match o with
  | Some d => negb (bool_decide (d = ∅))
  | None => false
  end.

(** *** Predictor states ([get_state] values) *)
Inductive pstate :=
  | StNB (n_consumed : nat) (prev_eos_probs : list F)
  | StWC
  | StExt (n_consumed : nat)
  | StNgc (cur_history : list Z) (discounts : gmap (list Z) (gmap Z F))
  | StUnk (n_unk n_consumed : nat) (unk_prob consumed_prob : F)
  | StNgz (history : list Z) (cur_unk_score : F).

#[global] Instance pstate_eq_dec : EqDecision pstate.
Proof. solve_decision. Defined.

(** *** NBLengthPredictor *)

Definition NUM_FEATURES : nat := 5.
Definition EPS_R : F := fofQ (1 # 10).
(** Modelled from the spec: [utils.EPS_P], the clamp bound of [p]
    (SGNMT's value 1e-5). *)
Definition EPS_P : F := fofQ (1 # 100000).

Record nb_cfg := {
  nb_use_point_probs : bool;
  nb_offset : Z;
  nb_r_weights : list F;
  nb_p_weights : list F;
  nb_src_features : list (list F) }.

(** The object after [initialize]. [max_eos_prob] is only set (and only
    read) with point probabilities; otherwise it holds [NEG_INF]. *)
Record nb_obj := {
  nb_cfg_of : nb_cfg;
  nb_cur_r : F;
  nb_cur_p : F;
  nb_max_eos_prob : F;
  nb_n_consumed : nat;
  nb_prev_eos_probs : list F }.

Definition nb_with_state (o : nb_obj) (n : nat) (prev : list F) : nb_obj :=
  {| nb_cfg_of := nb_cfg_of o; nb_cur_r := nb_cur_r o; nb_cur_p := nb_cur_p o;
     nb_max_eos_prob := nb_max_eos_prob o; nb_n_consumed := n;
     nb_prev_eos_probs := prev |}.

(** [_analyse_sentence]; None where [n_char/n_words] raises
    ZeroDivisionError. *)
Definition nb_analyse_sentence (sentence : pystr) : option (list F) :=
  let n_char := fofZ (Z.of_nat (length sentence)) in
  let nw := length (py_split sentence) in
  let n_words := fofZ (Z.of_nat nw) in
  let n_punct := fofZ (Z.of_nat (py_count (ord ",") sentence + py_count (ord ".") sentence
                   + py_count (ord ":") sentence + py_count (ord ";") sentence
                   + py_count (ord "-") sentence)) in
  if Nat.eqb nw 0 then None
  else Some [n_char; n_words; n_punct; fdiv n_char n_words; fdiv n_punct n_words].

(** [_extract_features] over the lines of the text file. *)
Definition nb_extract_features (lines : list pystr) : option (list (list F)) :=
  map_option (fun line => nb_analyse_sentence (py_strip line)) lines.

(** [__init__]. A weight list of length 10 gets two zero biases; any
    other length than 12 only makes [logging.fatal] write a log record.
    [model_weights[-2]] and [[-1]] raise IndexError on lists shorter than 2. *)
Definition nb_construct (text_file : list pystr) (model_weights : list F)
    (use_point_probs : bool) (offset : Z) : option nb_cfg :=
  let mw := if Nat.eqb (length model_weights) (2 * NUM_FEATURES)
            then model_weights ++ [fofQ 0; fofQ 0] else model_weights in
  match py_index_neg mw 2, py_index_neg mw 1 with
  | Some wr, Some wp =>
      match nb_extract_features text_file with
      | Some feats =>
          Some {| nb_use_point_probs := use_point_probs; nb_offset := offset;
                  nb_r_weights := firstn NUM_FEATURES mw ++ [wr];
                  nb_p_weights := firstn NUM_FEATURES (skipn NUM_FEATURES mw) ++ [wp];
                  nb_src_features := feats |}
      | None => None
      end
  | _, _ => None
  end.

(** [_get_eos_point_prob] *)
Definition nb_eos_point_prob (cur_r cur_p : F) (n : Z) : F :=
  fadd (fadd (fsub (fsub (gammaln (fadd (fofZ n) cur_r)) (gammaln (fofZ (n + 1))))
                   (gammaln cur_r))
             (fmul (fofZ n) (flog cur_p)))
       (fmul cur_r (flog (fsub (fofQ 1) cur_p))).

(** The [while n_prob == max_prob] loop of [_get_max_eos_prob], for at
    most [fuel] iterations (None when the fuel runs out first; the Python
    result is the value at any sufficient fuel). *)
Fixpoint nb_max_loop (cur_r cur_p : F) (fuel : nat) (n : Z) (n_prob max_prob : F)
    : option F :=
  if feqb n_prob max_prob then
    match fuel with
    | O => None
    | S fuel' =>
        let np := nb_eos_point_prob cur_r cur_p (n + 1) in
        nb_max_loop cur_r cur_p fuel' (n + 1) np (fmax max_prob np)
    end
  else Some max_prob.

Definition nb_get_max_eos_prob (fuel : nat) (cur_r cur_p : F) : option F :=
  nb_max_loop cur_r cur_p fuel 0 NEG_INF NEG_INF.

(** [initialize] for the sentence [sid]; [math.exp(-p)] raises
    OverflowError when [-p] is too large. *)
Definition nb_initialize (fuel : nat) (c : nb_cfg) (sid : nat) : option nb_obj :=
  match nth_error (nb_src_features c) sid with
  | None => None
  | Some f =>
      let feat := f ++ [fofQ 1] in
      match np_dot feat (nb_r_weights c), np_dot feat (nb_p_weights c) with
      | Some dr, Some dp =>
          let cur_r := fmax EPS_R dr in
          match math_exp (fopp dp) with
          | None => None
          | Some e =>
              let p := fdiv (fofQ 1) (fadd (fofQ 1) e) in
              let cur_p := fmax EPS_P (fmin (fsub (fofQ 1) EPS_P) p) in
              let mx := if nb_use_point_probs c
                        then nb_get_max_eos_prob fuel cur_r cur_p else Some NEG_INF in
              match mx with
              | Some m =>
                  Some {| nb_cfg_of := c; nb_cur_r := cur_r; nb_cur_p := cur_p;
                          nb_max_eos_prob := m; nb_n_consumed := 0;
                          nb_prev_eos_probs := [] |}
              | None => None
              end
          end
      | _, _ => None
      end
  end.

(** [_get_eos_prob]: the score and the new [prev_eos_probs]. *)
Definition nb_get_eos_prob (o : nb_obj) : F * list F :=
  let eos_point_prob := nb_eos_point_prob (nb_cur_r o) (nb_cur_p o)
         (Z.max 1 (Z.of_nat (nb_n_consumed o) - nb_offset (nb_cfg_of o))) in
  if nb_use_point_probs (nb_cfg_of o) then
    (fsub eos_point_prob (nb_max_eos_prob o), nb_prev_eos_probs o)
  else
    match nb_prev_eos_probs o with
    | [] => (eos_point_prob, [eos_point_prob])
    | prev =>
        let prev_sum := logsumexp prev in
        (fsub eos_point_prob (flog (fsub (fofQ 1) (fexp prev_sum))),
         prev ++ [eos_point_prob])
    end.

Definition nb_predict_next (o : nb_obj) : posterior * nb_obj :=
  match nb_n_consumed o with
  | O => ({[EOS_ID := NEG_INF]}, o)
  | _ =>
      let '(e, prev) := nb_get_eos_prob o in
      ({[EOS_ID := e]}, nb_with_state o (nb_n_consumed o) prev)
  end.

(** [get_unk_probability]; None where [posterior[EOS_ID]] raises KeyError. *)
Definition nb_get_unk_probability (o : nb_obj) (post : posterior) : option F :=
  if nb_use_point_probs (nb_cfg_of o) then
    match nb_n_consumed o with
    | O => Some (nb_max_eos_prob o)
    | _ => Some (fofQ 0)
    end
  else
    match nb_n_consumed o with
    | O => Some (fofQ 0)
    | _ => option_map (fun e => flog (fsub (fofQ 1) (fexp e))) (post !! EOS_ID)
    end.

Definition nb_consume (o : nb_obj) : nb_obj :=
  nb_with_state o (S (nb_n_consumed o)) (nb_prev_eos_probs o).

(** *** WordCountPredictor (no per-sentence state) *)

Record wc_obj := {
  wc_posterior : posterior;
  wc_unk_prob : F }.

(** [load_external_ids] over the lines of the id file. *)
Definition load_external_ids (lines : list pystr) : option (list Z) :=
  map_option (fun line => py_int (py_strip line)) lines.

(** The ids outside [min_terminal_id, max_terminal_id] below [vocab_size],
    or the ids of the file [nonterminal_ids] when one is given. *)
Definition nonterminal_set (nonterminal_ids : option (list pystr))
    (min_terminal_id max_terminal_id vocab_size : Z) : option (list Z) :=
  match nonterminal_ids with
  | Some lines => load_external_ids lines
  | None => Some (py_range 0 min_terminal_id ++ py_range (max_terminal_id + 1) vocab_size)
  end.

Definition wc_construct (word : Z) (nonterminal_penalty : bool)
    (nonterminal_ids : option (list pystr))
    (min_terminal_id max_terminal_id : Z) (negative_wc : bool) (vocab_size : Z)
    : option wc_obj :=
  let val := if negative_wc then fofQ (-1) else fofQ 1 in
  if nonterminal_penalty then
    match nonterminal_set nonterminal_ids min_terminal_id max_terminal_id vocab_size with
    | Some nts =>
        Some {| wc_posterior := <[UNK_ID := fofQ 0]> (<[EOS_ID := fofQ 0]>
                  (list_to_map (map (fun nt => (nt, val)) nts)));
                wc_unk_prob := fofQ 0 |}
    | None => None
    end
  else if word <? 0 then
    Some {| wc_posterior := {[EOS_ID := fofQ 0]}; wc_unk_prob := val |}
  else
    Some {| wc_posterior := {[word := val]}; wc_unk_prob := fofQ 0 |}.

(** *** WeightNonTerminalPredictor *)

Definition weight_mult (penalty_factor : F) (nonterminal_ids : option (list pystr))
    (min_terminal_id max_terminal_id vocab_size : Z) : option posterior :=
  match nonterminal_set nonterminal_ids min_terminal_id max_terminal_id vocab_size with
  | Some nts =>
      Some (<[UNK_ID := fofQ 1]> (<[EOS_ID := fofQ 1]>
              (list_to_map (map (fun tok => (tok, penalty_factor)) nts))))
  | None => None
  end.

(** The loop of [predict_next]: [posterior[tok] *= self.mult[tok]] for the
    ids present in both. *)
Definition weight_apply (mult post : posterior) : posterior :=
  map_imap (fun tok v => Some (match mult !! tok with
                               | Some m => fmul v m
                               | None => v
                               end)) post.

(** *** ExternalLengthPredictor *)

Definition parse_length_pair (scores : option posterior) (pair : pystr)
    : option posterior :=
  match scores with
  | None => None
  | Some sc =>
      if py_contains (ord ":") pair then
        match py_split_on (ord ":") pair with
        | [length; score] =>
            match py_int length, py_float score with
            | Some k, Some v => Some (<[k := v]> sc)
            | _, _ => None
            end
        | _ => None
        end
      else
        match py_int pair with
        | Some k => Some (<[k := fofQ 0]> sc)
        | None => None
        end
  end.

(** [load_external_lengths] over the lines of the length file. *)
Definition load_external_lengths (lines : list pystr) : option (list posterior) :=
  map_option (fun line => fold_left parse_length_pair (py_split (py_strip line)) (Some ∅))
    lines.

Record ext_cfg := { ext_trg_lengths : list posterior }.

Definition ext_construct (lines : list pystr) : option ext_cfg :=
  option_map (fun l => {| ext_trg_lengths := l |}) (load_external_lengths lines).

Record ext_obj := {
  ext_cfg_of : ext_cfg;
  ext_cur_scores : posterior;
  ext_max_length : Z;
  ext_n_consumed : nat }.

Definition ext_with_state (o : ext_obj) (n : nat) : ext_obj :=
  {| ext_cfg_of := ext_cfg_of o; ext_cur_scores := ext_cur_scores o;
     ext_max_length := ext_max_length o; ext_n_consumed := n |}.

(** Builtin [max(d)] over the keys of a dict; None (ValueError) when it is
    empty. *)
Definition py_max_key (d : posterior) : option Z :=
  match elements (dom d) with
  | [] => None
  | k :: ks => Some (fold_left Z.max ks k)
  end.

Definition ext_initialize (c : ext_cfg) (sid : nat) : option ext_obj :=
  match nth_error (ext_trg_lengths c) sid with
  | Some cur =>
      match py_max_key cur with
      | Some mx => Some {| ext_cfg_of := c; ext_cur_scores := cur;
                           ext_max_length := mx; ext_n_consumed := 0 |}
      | None => None
      end
  | None => None
  end.

Definition ext_predict_next (o : ext_obj) : posterior :=
  match ext_cur_scores o !! Z.of_nat (ext_n_consumed o) with
  | Some sc => {[EOS_ID := sc]}
  | None => {[EOS_ID := NEG_INF]}
  end.

Definition ext_get_unk_probability (o : ext_obj) : F :=
  if Z.of_nat (ext_n_consumed o) <? ext_max_length o then fofQ 0 else NEG_INF.

(** *** NgramCountPredictor *)

(** Modelled from the spec: [cam.sgnmt.misc.trie.SimpleTrie], keyed by
    token sequences with exact-match [get] (None when absent) and [add]
    that inserts or overwrites. *)
Local Abbreviation trie V := (gmap (list Z) V).

(** [path] is the file system seen through the path template: the lines
    of the n-gram file of a 1-based sentence index, None when it cannot be
    opened. *)
Record ngc_cfg := {
  ngc_path : nat -> option (list pystr);
  ngc_order : Z;
  ngc_discount_factor : F }.

Record ngc_obj := {
  ngc_cfg_of : ngc_cfg;
  ngc_max_history_len : nat;
  ngc_ngrams : trie posterior;
  ngc_cur_history : list Z;
  ngc_discounts : trie posterior }.

Definition ngc_with_state (o : ngc_obj) (h : list Z) (d : trie posterior) : ngc_obj :=
  {| ngc_cfg_of := ngc_cfg_of o; ngc_max_history_len := ngc_max_history_len o;
     ngc_ngrams := ngc_ngrams o; ngc_cur_history := h; ngc_discounts := d |}.

(** One line of [_load_posteriors]: the pair ([max_history_len], [ngrams]). *)
Definition ngc_load_line (order : Z) (acc : option (nat * trie posterior)) (line : pystr)
    : option (nat * trie posterior) :=
  match acc with
  | None => None
  | Some (mhl, ngrams) =>
      match py_split_on (ord ":") line with
      | [ngram; score] =>
          match map_option py_int (py_split (py_strip ngram)) with
          | None => None
          | Some words =>
              if (0 <? order) && negb (Z.of_nat (length words) =? order) then Some (mhl, ngrams)
              else
                match py_index_neg words 1 with
                | None => None
                | Some last_word =>
                    let hist := firstn (length words - 1) words in
                    if last_word =? GO_ID then Some (mhl, ngrams)
                    else
                      let mhl' := Nat.max mhl (length hist) in
                      match py_float (py_strip score) with
                      | None => None
                      | Some sc =>
                          let p := ngrams !! hist in
                          match p with
                          | Some d =>
                              if dict_truthy p then Some (mhl', <[hist := <[last_word := sc]> d]> ngrams)
                              else Some (mhl', <[hist := {[last_word := sc]}]> ngrams)
                          | None => Some (mhl', <[hist := {[last_word := sc]}]> ngrams)
                          end
                      end
                end
          end
      | _ => None
      end
  end.

Definition ngc_load_posteriors (order : Z) (lines : list pystr)
    : option (nat * trie posterior) :=
  fold_left (ngc_load_line order) lines (Some (0%nat, ∅)).

(** [initialize]: loads the file of sentence [sid + 1]. *)
Definition ngc_initialize (c : ngc_cfg) (sid : nat) : option ngc_obj :=
  match ngc_path c (S sid) with
  | None => None
  | Some lines =>
      match ngc_load_posteriors (ngc_order c) lines with
      | None => None
      | Some (mhl, ngrams) =>
          Some {| ngc_cfg_of := c; ngc_max_history_len := mhl; ngc_ngrams := ngrams;
                  ngc_cur_history := [GO_ID]; ngc_discounts := ∅ |}
      end
  end.

Definition discounting (c : ngc_cfg) : bool := fleb (fofQ 0) (ngc_discount_factor c).

(** Adds the scores of one matching context to the posterior. *)
Definition ngc_add_scores (post scores : posterior) : posterior :=
  map_fold (fun w sc acc => <[w := fadd (default (fofQ 0) (acc !! w)) sc]> acc) post scores.

Definition ngc_add_scores_discounted (post scores factors : posterior) : posterior :=
  map_fold (fun w sc acc =>
              <[w := fadd (default (fofQ 0) (acc !! w))
                          (fmul (default (fofQ 1) (factors !! w)) sc)]> acc) post scores.

Definition ngc_predict_next (o : ngc_obj) : posterior :=
  let h := ngc_cur_history o in
  fold_left (fun post i =>
     let suffix := drop i h in
     let scores := ngc_ngrams o !! suffix in
     match scores with
     | Some sc =>
         if dict_truthy scores then
           let factors := if discounting (ngc_cfg_of o) then ngc_discounts o !! suffix else None in
           match factors with
           | Some fc => if dict_truthy factors then ngc_add_scores_discounted post sc fc
                        else ngc_add_scores post sc
           | None => ngc_add_scores post sc
           end
         else post
     | None => post
     end) (rev (seq 0 (S (length h)))) ∅.

(** [l[i:-1]] *)
Definition py_slice_to_last {A} (l : list A) (i : nat) : list A :=
  firstn (length l - 1 - i) (skipn i l).

Definition ngc_discount_step (df : F) (word : Z) (h : list Z) (discounts : trie posterior)
    (i : nat) : trie posterior :=
  let key := py_slice_to_last h i in
  let factors := discounts !! key in
  let factors' := match factors with
                  | Some fc => if dict_truthy factors
                               then <[word := fmul (default (fofQ 1) (fc !! word)) df]> fc
                               else {[word := df]}
                  | None => {[word := df]}
                  end in
  <[key := factors']> discounts.

Definition ngc_consume (o : ngc_obj) (word : Z) : ngc_obj :=
  let h := ngc_cur_history o ++ [word] in
  let h := if (ngc_max_history_len o <? length h)%nat
           then py_tail_slice h (ngc_max_history_len o) else h in
  let d := if discounting (ngc_cfg_of o)
           then fold_left (ngc_discount_step (ngc_discount_factor (ngc_cfg_of o)) word h)
                          (seq 0 (length h)) (ngc_discounts o)
           else ngc_discounts o in
  ngc_with_state o h d.

Definition ngc_is_equal (o : ngc_obj) (hist1 hist2 : list Z) : bool :=
  if discounting (ngc_cfg_of o) then false
  else if bool_decide (hist1 = hist2) then true
  else
    let '(hist_long, hist_short) :=
      if (length hist2 <? length hist1)%nat then (hist1, hist2) else (hist2, hist1) in
    let min_len := length hist_short in
    let found k := dict_truthy (ngc_ngrams o !! k) in
    if existsb (fun n => let key1 := py_tail_slice hist1 n in
                         let key2 := py_tail_slice hist2 n in
                         negb (bool_decide (key1 = key2)) && (found key1 || found key2))
               (seq 1 min_len)
    then false
    else if existsb (fun n => found (py_tail_slice hist_long n))
                    (seq (S min_len) (length hist_long - min_len))
    then false
    else true.

(** *** UnkCountPredictor *)

Record unk_cfg := {
  unk_src_vocab_size : Z;
  unk_lambdas : list F }.


Record unk_obj := {
  unk_cfg_of : unk_cfg;
  unk_l : F;
  unk_max_prob_idx : Z;
  unk_max_prob : F;
  unk_n_unk : nat;
  unk_n_consumed : nat;
  unk_unk_prob : F;
  unk_consumed_prob : F }.

Definition unk_with_state (o : unk_obj) (n_unk n_consumed : nat) (unk_prob consumed_prob : F)
    : unk_obj :=
  {| unk_cfg_of := unk_cfg_of o; unk_l := unk_l o; unk_max_prob_idx := unk_max_prob_idx o;
     unk_max_prob := unk_max_prob o; unk_n_unk := n_unk; unk_n_consumed := n_consumed;
     unk_unk_prob := unk_prob; unk_consumed_prob := consumed_prob |}.

(** [_get_poisson_prob] *)
Definition get_poisson_prob (l : F) (n : Z) : F :=
  fsub (fsub (fmul (fofZ n) (flog l)) l)
       (py_sum (map (fun i => flog (fofZ (i + 1))) (py_range 0 n))).

Definition unk_initialize (c : unk_cfg) (src_sentence : list Z) : option unk_obj :=
  let src_n_unk := length (filter (fun w => (w =? UNK_ID) || (unk_src_vocab_size c <? w))
                                  src_sentence) in
  match nth_error (unk_lambdas c) (Nat.min (length (unk_lambdas c) - 1) src_n_unk) with
  | None => None
  | Some l =>
      let unk_prob := get_poisson_prob l 1 in
      match ftrunc l with
      | None => None
      | Some idx =>
          let max_prob := get_poisson_prob l idx in
          let ceil_prob := get_poisson_prob l (idx + 1) in
          let '(max_prob, idx) :=
            if fltb max_prob ceil_prob then (ceil_prob, idx + 1) else (max_prob, idx) in
          Some {| unk_cfg_of := c; unk_l := l; unk_max_prob_idx := idx;
                  unk_max_prob := max_prob; unk_n_unk := 0; unk_n_consumed := 0;
                  unk_unk_prob := unk_prob; unk_consumed_prob := max_prob |}
      end
  end.

Definition unk_predict_next (o : unk_obj) : posterior :=
  match unk_n_consumed o with
  | O => {[EOS_ID := unk_unk_prob o]}
  | _ =>
      if Z.of_nat (unk_n_unk o) <? unk_max_prob_idx o
      then {[EOS_ID := fsub (unk_unk_prob o) (unk_max_prob o)]}
      else {[UNK_ID := fsub (unk_unk_prob o) (unk_consumed_prob o)]}
  end.

Definition unk_get_unk_probability (o : unk_obj) : F :=
  match unk_n_consumed o with
  | O => unk_max_prob o
  | _ => fofQ 0
  end.

Definition unk_consume (o : unk_obj) (word : Z) : unk_obj :=
  let n_consumed := S (unk_n_consumed o) in
  if word =? UNK_ID then
    let consumed_prob := if unk_max_prob_idx o <=? Z.of_nat (unk_n_unk o)
                         then unk_unk_prob o else unk_consumed_prob o in
    let n_unk := S (unk_n_unk o) in
    unk_with_state o n_unk n_consumed (get_poisson_prob (unk_l o) (Z.of_nat n_unk + 1))
                   consumed_prob
  else unk_with_state o (unk_n_unk o) n_consumed (unk_unk_prob o) (unk_consumed_prob o).

(** *** NgramizePredictor *)

(** The slave of [NgramizePredictor]: a predictor whose [predict_next]
    returns a dense array (the class docstring excludes dict posteriors),
    given by its operations on its own state. *)
Record array_predictor := {
  ap_state : Type;
  ap_initialize : nat -> list Z -> ap_state;
  ap_predict_next : ap_state -> list F;
  ap_get_unk_probability : ap_state -> list F -> F;
  ap_consume : ap_state -> Z -> ap_state }.

(** Modelled from the spec: [utils.argmax] on an array, the index of the
    first maximal entry; None (ValueError) on an empty array. *)
Definition argmax (v : list F) : option Z :=
  match v with
  | [] => None
  | x :: v' =>
      Some (snd (fst (fold_left (fun '(best, bi, i) y =>
                                   if fltb best y then (y, i, i + 1) else (best, bi, i + 1))
                                v' (x, 0, 1))))
  end.

(** Modelled from the spec: [utils.common_get] on an array, the entry at
    [word], or [default] when [word] is not an index of it. *)
Definition common_get (v : list F) (word : Z) (default : F) : F :=
  if (0 <=? word) && (word <? Z.of_nat (length v))
  then nth (Z.to_nat word) v default else default.

(** Modelled from the spec: [utils.log_sum], log-sum-exp. *)
Definition log_sum (xs : list F) : F := logsumexp xs.

(** [logsumexp(np.vstack(rows), axis=0)] on rows of one length. *)
Definition logsumexp_cols (rows : list (list F)) : list F :=
  map (fun j => logsumexp (map (fun r => nth j r (fofQ 0)) rows))
      (seq 0 (length (hd [] rows))).

(** [sum(arrays)] over a non-empty list of arrays: [0 + a1 + a2 + ...]. *)
Definition py_sum_arrays (vs : list (list F)) : list F :=
  match vs with
  | [] => []
  | v :: vs' => fold_left (zip_with fadd) vs' (map (fadd (fofZ 0)) v)
  end.

(** A dense array as the posterior mapping each index to its entry. *)
Definition array_posterior (v : list F) : posterior :=
  list_to_map (zip (map Z.of_nat (seq 0 (length v))) v).

Record ngz_cfg := {
  ngz_min_order : Z;
  ngz_max_history_length : Z;
  ngz_max_len_factor : Z;
  ngz_slave : array_predictor }.

(** [__init__]: None where it raises AttributeError. *)
Definition ngz_construct (min_order max_order max_len_factor : Z) (slave : array_predictor)
    : option ngz_cfg :=
  if max_order <? 1 then None
  else if max_order <? min_order then None
  else Some {| ngz_min_order := Z.max 1 min_order; ngz_max_history_length := max_order - 1;
               ngz_max_len_factor := max_len_factor; ngz_slave := slave |}.

Record ngz_obj := {
  ngz_cfg_of : ngz_cfg;
  ngz_scores : list (list F);
  ngz_unk_scores : list F;
  ngz_history : list Z;
  ngz_cur_unk_score : F }.

Definition ngz_with_state (o : ngz_obj) (h : list Z) (u : F) : ngz_obj :=
  {| ngz_cfg_of := ngz_cfg_of o; ngz_scores := ngz_scores o;
     ngz_unk_scores := ngz_unk_scores o; ngz_history := h; ngz_cur_unk_score := u |}.

(** The [while trg_word != EOS_ID and l <= max_len] loop of [initialize];
    [k] is the number of values [l] may still take, [max_len - l + 1]. *)
Fixpoint ngz_greedy (sl : array_predictor) (k : nat) (trg_word : Z) (st : ap_state sl)
    : option (list (list F) * list F) :=
  match k with
  | O => Some ([], [])
  | S k' =>
      if trg_word =? EOS_ID then Some ([], [])
      else
        let post := ap_predict_next sl st in
        match argmax post with
        | None => None
        | Some w =>
            let u := ap_get_unk_probability sl st post in
            match ngz_greedy sl k' w (ap_consume sl st UNK_ID) with
            | Some (ss, us) => Some (post :: ss, u :: us)
            | None => None
            end
        end
  end.

Definition ngz_initialize (c : ngz_cfg) (sid : nat) (src_sentence : list Z) : option ngz_obj :=
  let sl := ngz_slave c in
  let max_len := ngz_max_len_factor c * Z.of_nat (length src_sentence) in
  match ngz_greedy sl (Z.to_nat (max_len + 1)) (-1) (ap_initialize sl sid src_sentence) with
  | Some (scores, unk_scores) =>
      Some {| ngz_cfg_of := c; ngz_scores := scores; ngz_unk_scores := unk_scores;
              ngz_history := []; ngz_cur_unk_score := NEG_INF |}
  | None => None
  end.

(** [xs[i].append(v)] *)
Definition append_at {A} (i : nat) (v : A) (xs : list (list A)) : list (list A) :=
  alter (fun l => l ++ [v]) i xs.

(** The inner [for order, word in enumerate(self.history)] loop. *)
Fixpoint ngz_inner (scores : list (list F)) (unks : list F) (pos order : nat)
    (hist : list Z) (acc : F) (ts : list (list (list F))) (tu : list (list F))
    : list (list (list F)) * list (list F) :=
  match hist with
  | [] => (ts, tu)
  | word :: hist' =>
      if (length scores <=? pos + order + 1)%nat then (ts, tu)
      else
        let acc := fadd acc (common_get (nth (pos + order) scores [])
                                        word (nth (pos + order) unks (fofQ 0))) in
        let ts := append_at (S order) (map (fadd acc) (nth (pos + order + 1) scores [])) ts in
        let tu := append_at (S order) (fadd acc (nth (pos + order + 1) unks (fofQ 0))) tu in
        ngz_inner scores unks pos (S order) hist' acc ts tu
  end.

(** [predict_next]: the posterior and the new [cur_unk_score]. *)
Definition ngz_predict_next (o : ngz_obj) : posterior * F :=
  let scores := ngz_scores o in
  let unks := ngz_unk_scores o in
  let h := ngz_history o in
  let '(ts, tu) :=
    fold_left (fun '(ts, tu) pos =>
                 let ts := append_at 0 (nth pos scores []) ts in
                 let tu := append_at 0 (nth pos unks (fofQ 0)) tu in
                 ngz_inner scores unks pos 0 h (fofQ 0) ts tu)
              (seq 0 (length scores))
              (repeat [] (S (length h)), repeat [] (S (length h))) in
  let combined :=
    flat_map (fun '(order, (sc, us)) =>
                match sc with
                | [] => []
                | _ => if ngz_min_order (ngz_cfg_of o) <=? Z.of_nat order + 1
                       then [(logsumexp_cols sc, log_sum us)] else []
                end)
             (zip (seq 0 (length ts)) (zip ts tu)) in
  match combined with
  | [] => (∅, fofQ 0)
  | _ => (array_posterior (py_sum_arrays (map fst combined)), py_sum (map snd combined))
  end.

Definition ngz_consume (o : ngz_obj) (word : Z) : ngz_obj :=
  if 0 <? ngz_max_history_length (ngz_cfg_of o)
  then ngz_with_state o (py_tail_slice (ngz_history o ++ [word])
                                       (Z.to_nat (ngz_max_history_length (ngz_cfg_of o))))
                      (ngz_cur_unk_score o)
  else o.

(** *** The predictor interface *)

(** Constructed predictors, before [initialize]. *)
Inductive cfg :=
  | CNB (c : nb_cfg)
  | CWC (o : wc_obj)
  | CWeight (mult : posterior) (slave : cfg)
  | CExt (c : ext_cfg)
  | CNgc (c : ngc_cfg)
  | CUnk (c : unk_cfg)
  | CNgz (c : ngz_cfg).

(** Predictors after [initialize]. *)
Inductive pred :=
  | PNB (o : nb_obj)
  | PWC (o : wc_obj)
  | PWeight (mult : posterior) (slave : pred)
  | PExt (o : ext_obj)
  | PNgc (o : ngc_obj)
  | PUnk (o : unk_obj)
  | PNgz (o : ngz_obj).

(** [initialize(src_sentence)] for the sentence index [sid] set by
    [set_current_sen_id]; [fuel] bounds the search loop of
    [NBLengthPredictor._get_max_eos_prob]. None where Python raises. *)
Fixpoint initialize (fuel : nat) (c : cfg) (sid : nat) (src : list Z) : option pred :=
  match c with
  | CNB c => option_map PNB (nb_initialize fuel c sid)
  | CWC o => Some (PWC o)
  | CWeight m s => option_map (PWeight m) (initialize fuel s sid src)
  | CExt c => option_map PExt (ext_initialize c sid)
  | CNgc c => option_map PNgc (ngc_initialize c sid)
  | CUnk c => option_map PUnk (unk_initialize c src)
  | CNgz c => option_map PNgz (ngz_initialize c sid src)
  end.

(** [predict_next()]: the returned posterior and the predictor as a
    function of that posterior object. The posterior is a fresh dict or
    array except for [WordCountPredictor], which returns its own
    [self.posterior]: a caller that mutates the returned dict (as
    [WeightNonTerminalPredictor] does) mutates that field. *)
Fixpoint predict_next (p : pred) : posterior * (posterior -> pred) :=
  match p with
  | PNB o => let '(post, o') := nb_predict_next o in (post, fun _ => PNB o')
  | PWC o => (wc_posterior o, fun q => PWC {| wc_posterior := q; wc_unk_prob := wc_unk_prob o |})
  | PWeight m s =>
      let '(post, k) := predict_next s in
      let post' := weight_apply m post in
      (post', fun q => PWeight m (k q))
  | PExt o => (ext_predict_next o, fun _ => p)
  | PNgc o => (ngc_predict_next o, fun _ => p)
  | PUnk o => (unk_predict_next o, fun _ => p)
  | PNgz o =>
      let '(post, u) := ngz_predict_next o in
      (post, fun _ => PNgz (ngz_with_state o (ngz_history o) u))
  end.

(** One call of [predict_next] by a caller that does not mutate the result. *)
Definition predict_step (p : pred) : posterior * pred :=
  let '(post, k) := predict_next p in (post, k post).

Fixpoint get_unk_probability (p : pred) (post : posterior) : option F :=
  match p with
  | PNB o => nb_get_unk_probability o post
  | PWC o => Some (wc_unk_prob o)
  | PWeight _ s => get_unk_probability s post
  | PExt o => Some (ext_get_unk_probability o)
  | PNgc _ => Some (fofQ 0)
  | PUnk o => Some (unk_get_unk_probability o)
  | PNgz o => Some (ngz_cur_unk_score o)
  end.

Fixpoint consume (p : pred) (word : Z) : pred :=
  match p with
  | PNB o => PNB (nb_consume o)
  | PWC o => PWC o
  | PWeight m s => PWeight m (consume s word)
  | PExt o => PExt (ext_with_state o (S (ext_n_consumed o)))
  | PNgc o => PNgc (ngc_consume o word)
  | PUnk o => PUnk (unk_consume o word)
  | PNgz o => PNgz (ngz_consume o word)
  end.

Fixpoint get_state (p : pred) : pstate :=
  match p with
  | PNB o => StNB (nb_n_consumed o) (nb_prev_eos_probs o)
  | PWC _ => StWC
  | PWeight _ s => get_state s
  | PExt o => StExt (ext_n_consumed o)
  | PNgc o => StNgc (ngc_cur_history o) (ngc_discounts o)
  | PUnk o => StUnk (unk_n_unk o) (unk_n_consumed o) (unk_unk_prob o) (unk_consumed_prob o)
  | PNgz o => StNgz (ngz_history o) (ngz_cur_unk_score o)
  end.

(** [set_state(state)]; None where the state has another shape (Python
    fails to unpack it). [WordCountPredictor.set_state] ignores it. *)
Fixpoint set_state (p : pred) (st : pstate) : option pred :=
  match p, st with
  | PNB o, StNB n prev => Some (PNB (nb_with_state o n prev))
  | PWC o, _ => Some (PWC o)
  | PWeight m s, _ => option_map (PWeight m) (set_state s st)
  | PExt o, StExt n => Some (PExt (ext_with_state o n))
  | PNgc o, StNgc h d => Some (PNgc (ngc_with_state o h d))
  | PUnk o, StUnk nu nc up cp => Some (PUnk (unk_with_state o nu nc up cp))
  | PNgz o, StNgz h u => Some (PNgz (ngz_with_state o h u))
  | _, _ => None
  end.

(** [is_equal(state1, state2)]; false on states of another shape. *)
Fixpoint is_equal (p : pred) (s1 s2 : pstate) : bool :=
  match p, s1, s2 with
  | PNB _, StNB n1 _, StNB n2 _ => Nat.eqb n1 n2
  | PWC _, _, _ => true
  | PWeight _ s, _, _ => is_equal s s1 s2
  | PExt _, StExt n1, StExt n2 => Nat.eqb n1 n2
  | PNgc o, StNgc h1 _, StNgc h2 _ => ngc_is_equal o h1 h2
  | PUnk _, StUnk _ _ _ _, StUnk _ _ _ _ => bool_decide (s1 = s2)
  | PNgz _, StNgz _ _, StNgz _ _ => bool_decide (s1 = s2)
  | _, _, _ => false
  end.

End Model.

(** ** A float semantics: the real numbers with the infinities and NaN *)

(** Real arithmetic in place of rounding; [int()] truncates towards zero
    and fails on the infinities and NaN; [gammaln] is the real function
    [lg] on finite arguments. The division by zero the module never
    performs (Python raises there) gives NaN. *)
Inductive xR := XF (r : R) | XNInf | XPInf | XNaN.

#[global] Instance R_eq_dec : EqDecision R := Req_dec_T.
#[global] Instance xR_eq_dec : EqDecision xR.
Proof. solve_decision. Defined.

Definition x_add (a b : xR) : xR :=
  match a, b with
  | XF x, XF y => XF (x + y)
  | XNaN, _ | _, XNaN => XNaN
  | XNInf, XPInf | XPInf, XNInf => XNaN
  | XNInf, _ | _, XNInf => XNInf
  | XPInf, _ | _, XPInf => XPInf
  end.

Definition x_opp (a : xR) : xR :=
  match a with
  | XF x => XF (- x)
  | XNInf => XPInf
  | XPInf => XNInf
  | XNaN => XNaN
  end.

(** An infinity of sign [pos] times the finite [x]. *)
Definition x_inf_times (pos : bool) (x : R) : xR :=
  if Rlt_dec 0 x then (if pos then XPInf else XNInf)
  else if Rlt_dec x 0 then (if pos then XNInf else XPInf)
  else XNaN.

Definition x_mul (a b : xR) : xR :=
  match a, b with
  | XF x, XF y => XF (x * y)
  | XNaN, _ | _, XNaN => XNaN
  | XF x, XPInf | XPInf, XF x => x_inf_times true x
  | XF x, XNInf | XNInf, XF x => x_inf_times false x
  | XPInf, XPInf | XNInf, XNInf => XPInf
  | _, _ => XNInf
  end.

Definition x_div (a b : xR) : xR :=
  match a, b with
  | XF x, XF y => if Req_dec_T y 0 then XNaN else XF (x / y)
  | XNaN, _ | _, XNaN => XNaN
  | XF _, _ => XF 0
  | XPInf, XF y => x_inf_times true y
  | XNInf, XF y => x_inf_times false y
  | _, _ => XNaN
  end.

Definition x_log (a : xR) : xR :=
  match a with
  | XF x => if Rlt_dec 0 x then XF (ln x) else if Req_dec_T x 0 then XNInf else XNaN
  | XPInf => XPInf
  | _ => XNaN
  end.

Definition x_exp (a : xR) : xR :=
  match a with
  | XF x => XF (exp x)
  | XNInf => XF 0
  | XPInf => XPInf
  | XNaN => XNaN
  end.

(** The largest double, [(2 - 2^-52) * 2^1023]. *)
Definition DBL_MAX : R := (2 - / 2 ^ 52) * 2 ^ 1023.

(** [math.exp]: OverflowError where the exponential of a finite argument
    exceeds the largest double (up to the rounding at the boundary). *)
Definition x_math_exp (a : xR) : option xR :=
  match a with
  | XF x => if Rlt_dec DBL_MAX (exp x) then None else Some (XF (exp x))
  | _ => Some (x_exp a)
  end.

Definition x_gammaln (lg : R -> R) (a : xR) : xR :=
  match a with
  | XF x => XF (lg x)
  | XPInf => XPInf
  | _ => XNaN
  end.

Definition x_ltb (a b : xR) : bool :=
  match a, b with
  | XF x, XF y => if Rlt_dec x y then true else false
  | XNInf, XF _ | XNInf, XPInf | XF _, XPInf => true
  | _, _ => false
  end.

Definition x_eqb (a b : xR) : bool :=
  match a, b with
  | XF x, XF y => if Req_dec_T x y then true else false
  | XNInf, XNInf | XPInf, XPInf => true
  | _, _ => false
  end.

Definition x_trunc (a : xR) : option Z :=
  match a with
  | XF x => Some (if Rle_dec 0 x then Int_part x else - Int_part (- x))
  | _ => None
  end.

#[global] Instance xR_float (lg : R -> R) : PyFloat xR := {
  NEG_INF := XNInf;
  fofQ q := XF (Q2R q);
  fadd := x_add;
  fsub a b := x_add a (x_opp b);
  fmul := x_mul;
  fdiv := x_div;
  fopp := x_opp;
  flog := x_log;
  fexp := x_exp;
  math_exp := x_math_exp;
  NAN := XNaN;
  gammaln := x_gammaln lg;
  logsumexp l := x_log (fold_left x_add (map x_exp l) (XF 0));
  fltb := x_ltb;
  fleb a b := x_ltb a b || x_eqb a b;
  feqb := x_eqb;
  ftrunc := x_trunc }.

(** ** Derived notions used in the statements *)

Section Derived.
Context {F : Type} `{PyFloat F}.

(** The predictors whose [is_equal] refuses every pair of states: an
    [NgramCountPredictor] that discounts, possibly under weighting
    wrappers. *)
Fixpoint recombination_disabled (p : pred (F:=F)) : bool :=
  match p with
  | PNgc o => discounting (ngc_cfg_of o)
  | PWeight _ s => recombination_disabled s
  | _ => false
  end.

(** The predictors whose [predict_next] returns the [posterior] dict of a
    [WordCountPredictor] itself rather than a fresh object. *)
Fixpoint returns_own_dict (p : pred (F:=F)) : bool :=
  match p with
  | PWC _ => true
  | PWeight _ s => returns_own_dict s
  | _ => false
  end.

(** The [posterior] dict of the [WordCountPredictor] under the wrappers. *)
Fixpoint own_dict (p : pred (F:=F)) : option (gmap Z F) :=
  match p with
  | PWC o => Some (wc_posterior o)
  | PWeight _ s => own_dict s
  | _ => None
  end.

(** The predictor under the [WeightNonTerminalPredictor] wrappers. *)
Fixpoint inner_pred (p : pred (F:=F)) : pred (F:=F) :=
  match p with
  | PWeight _ s => inner_pred s
  | _ => p
  end.

(** What one [predict_next] call does to the predictor: nothing
    ([FrPure]), an update of [cur_unk_score] ([FrIdem]), an append to
    [prev_eos_probs] ([FrAppend]), or the in-place weighting of the
    [WordCountPredictor]'s own dict ([FrAlias]). *)
Inductive frame := FrPure | FrIdem | FrAppend | FrAlias.

Fixpoint predict_frame (p : pred (F:=F)) : frame :=
  match p with
  | PNB o => if nb_use_point_probs (nb_cfg_of o) then FrPure
             else match nb_n_consumed o with O => FrPure | S _ => FrAppend end
  | PWC _ => FrPure
  | PWeight _ s => if returns_own_dict s then FrAlias else predict_frame s
  | PNgz _ => FrIdem
  | _ => FrPure
  end.

(** The slave of [NgramizePredictor] after [n] calls [consume(UNK_ID)]. *)
Fixpoint ap_run (sl : array_predictor (F:=F)) (n : nat) (st : ap_state sl) : ap_state sl :=
  match n with
  | O => st
  | S n' => ap_run sl n' (ap_consume sl st UNK_ID)
  end.

(** The predictor after [initialize] and the [consume] calls [ws]. *)
Definition run_consume (p0 : pred (F:=F)) (ws : list Z) : pred (F:=F) :=
  fold_left consume ws p0.

(** One call of the decoding loop on a predictor: [consume(w)] or
    [predict_next()] (whose posterior is dropped). *)
Inductive action := ACons (w : Z) | APred.

Definition run_action (p : pred (F:=F)) (a : action) : pred (F:=F) :=
  match a with
  | ACons w => consume p w
  | APred => snd (predict_step p)
  end.

(** The predictor after [initialize] and the calls [acts], in order. *)
Definition run_actions (p0 : pred (F:=F)) (acts : list action) : pred (F:=F) :=
  fold_left run_action acts p0.

(** A [WeightNonTerminalPredictor] (possibly nested) whose innermost
    predictor is a [WordCountPredictor]: its [predict_next] weights the
    slave's own dict in place. *)
Definition weights_own_dict (p : pred (F:=F)) : bool :=
  match p with
  | PWeight _ s => returns_own_dict s
  | _ => false
  end.

(** [q] is reproduced by restoring its state into [p]. *)
Definition restores (p q : pred (F:=F)) : Prop := set_state p (get_state q) = Some q.

(** The fields of an [UnkCountPredictor] that [consume] keeps, and the
    link between [unk_prob] and the unknown count. *)
Definition unk_inv (l : F) (m : Z) (mp : F) (o : unk_obj (F:=F)) : Prop :=
  unk_l o = l /\ unk_max_prob_idx o = m /\ unk_max_prob o = mp /\
  unk_unk_prob o = get_poisson_prob l (Z.of_nat (unk_n_unk o) + 1).



End Derived.

(** ** Concrete configurations *)

(** The semantics with [gammaln] returning 0 on finite arguments, for
    concrete runs that never read [gammaln]. *)
Definition xR0 : PyFloat xR := xR_float (fun _ => 0%R).
#[local] Existing Instance xR0.

(** An n-gram file of one sentence holding the single unigram [5]. *)
Definition unigram_file (i : nat) : option (list pystr) :=
  match i with 1%nat => Some [py_str "5 : -1.0"] | _ => None end.

Definition ngc_unigrams {F : Type} (df : F) : ngc_cfg (F:=F) :=
  {| ngc_path := unigram_file; ngc_order := 0; ngc_discount_factor := df |}.



(** A slave predictor of [NgramizePredictor] that always predicts the
    one-entry array [[0.0]] (arg-max 0, never [EOS_ID]). *)
Definition const_slave : array_predictor (F:=xR) :=
  {| ap_state := unit;
     ap_initialize _ _ := tt;
     ap_predict_next _ := [fofQ 0];
     ap_get_unk_probability _ _ := NEG_INF;
     ap_consume _ _ := tt |}.

(** A slave predictor of [NgramizePredictor] that always predicts
    [[0.0, 0.0, 1.0]] (arg-max [EOS_ID]). *)
Definition eos_slave : array_predictor (F:=xR) :=
  {| ap_state := unit;
     ap_initialize _ _ := tt;
     ap_predict_next _ := [fofQ 0; fofQ 0; fofQ 1];
     ap_get_unk_probability _ _ := NEG_INF;
     ap_consume _ _ := tt |}.

(** A negative binomial length model without point probabilities,
    with one source sentence of five features [1.0] and all weights 0. *)
Definition nb_zero_cfg : nb_cfg (F:=xR) :=
  {| nb_use_point_probs := false; nb_offset := 0;
     nb_r_weights := repeat (XF 0) 6; nb_p_weights := repeat (XF 0) 6;
     nb_src_features := [repeat (XF 1) 5] |}.

(** A negative binomial state with [r = 2], [p = 0.5], [offset = 0] and
    three consumed words. *)
Definition nb_example_obj (use_point_probs : bool) (prev : list xR) : nb_obj (F:=xR) :=
  {| nb_cfg_of := {| nb_use_point_probs := use_point_probs; nb_offset := 0;
                     nb_r_weights := []; nb_p_weights := []; nb_src_features := [] |};
     nb_cur_r := XF 2; nb_cur_p := XF (1 / 2); nb_max_eos_prob := XNInf;
     nb_n_consumed := 3; nb_prev_eos_probs := prev |}.

(** ** Structural properties of the interface *)

Section Interface.
Context {F : Type} `{PyFloat F}.

Lemma set_get_same (p : pred (F:=F)) : set_state p (get_state p) = Some p.
Proof.
  induction p as [o|o|m s IH|o|o|o|o]; simpl; try (destruct o; reflexivity).
  rewrite IH; reflexivity.
Qed.

Lemma restores_refl (p : pred (F:=F)) : restores p p.
Proof. apply set_get_same. Qed.

Lemma restores_consume (p q : pred (F:=F)) (w : Z) :
  restores p q -> restores p (consume q w).
Proof.
  unfold restores. revert q.
  induction p as [o|o|m s IH|o|o|o|o]; intros q Hq; simpl in Hq.
  - destruct (get_state q) eqn:E; try discriminate. injection Hq as <-. reflexivity.
  - injection Hq as <-. reflexivity.
  - destruct (set_state s (get_state q)) as [s'|] eqn:E; try discriminate.
    injection Hq as <-. simpl in *. rewrite (IH s' E). reflexivity.
  - destruct (get_state q) eqn:E; try discriminate. injection Hq as <-. reflexivity.
  - destruct (get_state q) eqn:E; try discriminate. injection Hq as <-. reflexivity.
  - destruct (get_state q) eqn:E; try discriminate. injection Hq as <-.
    simpl. unfold unk_consume. destruct (w =? UNK_ID); reflexivity.
  - destruct (get_state q) eqn:E; try discriminate. injection Hq as <-.
    simpl. unfold ngz_consume. destruct (0 <? _); reflexivity.
Qed.

Lemma restores_run (p0 : pred (F:=F)) (ws : list Z) : restores p0 (run_consume p0 ws).
Proof.
  unfold run_consume.
  assert (Hg : forall q, restores p0 q -> restores p0 (fold_left consume ws q)).
  { induction ws as [|w ws IH]; intros q Hq; simpl; [exact Hq|].
    apply IH, restores_consume, Hq. }
  apply Hg, restores_refl.
Qed.

Lemma set_state_own_dict (s q : pred (F:=F)) (st : pstate) :
  set_state s st = Some q -> returns_own_dict q = returns_own_dict s.
Proof.
  revert q. induction s as [o|o|m s IH|o|o|o|o]; intros q Hq; simpl in Hq.
  3: { destruct (set_state s st) as [s'|] eqn:E; try discriminate.
       injection Hq as <-. simpl. exact (IH s' eq_refl). }
  all: destruct st; try discriminate; injection Hq as <-; reflexivity.
Qed.

Lemma weights_own_dict_false (s : pred (F:=F)) :
  returns_own_dict s = false -> weights_own_dict s = false.
Proof. destruct s; simpl; congruence. Qed.

Lemma predict_next_fresh (p : pred (F:=F)) :
  returns_own_dict p = false -> forall q, snd (predict_next p) q = snd (predict_step p).
Proof.
  induction p as [o|o|m s IH|o|o|o|o]; simpl; intros Hf q; try discriminate;
    unfold predict_step; simpl.
  - destruct (nb_predict_next o); reflexivity.
  - specialize (IH Hf). unfold predict_step in IH.
    destruct (predict_next s) as [post k]; simpl in *.
    rewrite (IH q), (IH (weight_apply m post)). reflexivity.
  - reflexivity.
  - reflexivity.
  - reflexivity.
  - destruct (ngz_predict_next o); reflexivity.
Qed.

Lemma returns_own_dict_next (p : pred (F:=F)) q :
  returns_own_dict (snd (predict_next p) q) = returns_own_dict p.
Proof.
  revert q. induction p as [o|o|m s IH|o|o|o|o]; intros q; simpl; try reflexivity.
  - destruct (nb_predict_next o); reflexivity.
  - destruct (predict_next s) as [post k] eqn:E; simpl in *. exact (IH q).
  - destruct (ngz_predict_next o); reflexivity.
Qed.

(** Under [returns_own_dict], the continuation installs its argument as
    the [WordCountPredictor]'s dict and keeps the state. *)
Lemma own_dict_next (p : pred (F:=F)) q :
  returns_own_dict p = true ->
  own_dict (snd (predict_next p) q) = Some q /\ get_state (snd (predict_next p) q) = get_state p.
Proof.
  revert q. induction p as [o|o|m s IH|o|o|o|o]; intros q Hf; simpl in *; try discriminate.
  - split; reflexivity.
  - destruct (predict_next s) as [post k] eqn:E; simpl in *. exact (IH q Hf).
Qed.

Lemma predict_step_weight (m : gmap Z F) (s : pred (F:=F)) :
  returns_own_dict s = false ->
  predict_step (PWeight m s) = (weight_apply m (fst (predict_step s)), PWeight m (snd (predict_step s))).
Proof.
  intros Hf. pose proof (predict_next_fresh s Hf) as Hk.
  unfold predict_step in *; simpl.
  destruct (predict_next s) as [post k]; simpl in *. rewrite Hk. reflexivity.
Qed.

Lemma restores_predict (p q : pred (F:=F)) :
  weights_own_dict p = false -> restores p q -> restores p (snd (predict_step q)).
Proof.
  unfold restores. revert q.
  induction p as [o|o|m s IH|o|o|o|o]; intros q Hw Hq; simpl in Hq.
  - destruct (get_state q) eqn:E; try discriminate. injection Hq as <-.
    unfold predict_step; simpl. unfold nb_predict_next; simpl.
    match goal with |- context [match ?n with O => _ | S _ => _ end] => destruct n end;
      [reflexivity|]. destruct (nb_get_eos_prob _); reflexivity.
  - injection Hq as <-. unfold predict_step; simpl. destruct o; reflexivity.
  - simpl in Hw.
    destruct (set_state s (get_state q)) as [s'|] eqn:E; try discriminate.
    injection Hq as <-.
    assert (Hs' : returns_own_dict s' = false).
    { rewrite (set_state_own_dict _ _ _ E). exact Hw. }
    rewrite (predict_step_weight m s' Hs'). simpl.
    simpl in E. rewrite (IH s' (weights_own_dict_false s Hw) E). reflexivity.
  - destruct (get_state q) eqn:E; try discriminate. injection Hq as <-. reflexivity.
  - destruct (get_state q) eqn:E; try discriminate. injection Hq as <-. reflexivity.
  - destruct (get_state q) eqn:E; try discriminate. injection Hq as <-. reflexivity.
  - destruct (get_state q) eqn:E; try discriminate. injection Hq as <-.
    unfold predict_step; simpl. destruct (ngz_predict_next _); reflexivity.
Qed.

Lemma restores_actions (p0 : pred (F:=F)) (acts : list action) :
  (weights_own_dict p0 = false \/ ~ In APred acts) -> restores p0 (run_actions p0 acts).
Proof.
  intros Hc. unfold run_actions.
  assert (Hg : forall acts', (weights_own_dict p0 = false \/ ~ In APred acts') ->
            forall q, restores p0 q -> restores p0 (fold_left run_action acts' q)).
  { induction acts' as [|a acts' IH]; intros Hc' q Hq; simpl; [exact Hq|].
    apply IH.
    - destruct Hc' as [Hw|Hn]; [left; exact Hw|right; intros Hi; apply Hn; right; exact Hi].
    - destruct a as [w|]; simpl.
      + apply restores_consume, Hq.
      + destruct Hc' as [Hw|Hn]; [apply restores_predict; assumption|].
        exfalso; apply Hn; left; reflexivity. }
  apply Hg; [exact Hc|apply restores_refl].
Qed.

End Interface.

(** ** Recombination, frame of [predict_next], state round trip *)

Section Claims_interface.
Context {F : Type} `{PyFloat F}.

Lemma predict_frame_alias (p : pred (F:=F)) :
  predict_frame p = FrAlias -> returns_own_dict p = true.
Proof.
  induction p as [o|o|m s IH|o|o|o|o]; simpl; try reflexivity; intros Hp.
  - destruct (nb_use_point_probs (nb_cfg_of o)); [discriminate|].
    destruct (nb_n_consumed o); discriminate.
  - destruct (returns_own_dict s); [reflexivity|]. exact (IH Hp).
  - discriminate.
  - discriminate.
  - discriminate.
  - discriminate.
Qed.

(** C1 (corrected): [is_equal(s, s)] with [s = get_state()] is true for
    every predictor in every state, except an [NgramCountPredictor] with
    [discount_factor >= 0] (alone or under weighting wrappers); such a
    predictor's [is_equal] is false on every pair of states, [(s, s)]
    included. *)
Theorem is_equal_self (p : pred (F:=F)) :
  is_equal p (get_state p) (get_state p) = negb (recombination_disabled p) /\
  (recombination_disabled p = true -> forall s1 s2, is_equal p s1 s2 = false).
Proof.
  split.
  - induction p as [o|o|m s IH|o|o|o|o]; simpl.
    + apply Nat.eqb_refl.
    + reflexivity.
    + exact IH.
    + apply Nat.eqb_refl.
    + unfold ngc_is_equal. destruct (discounting (ngc_cfg_of o)); [reflexivity|].
      rewrite bool_decide_eq_true_2; reflexivity.
    + apply bool_decide_eq_true_2; reflexivity.
    + apply bool_decide_eq_true_2; reflexivity.
  - induction p as [o|o|m s IH|o|o|o|o]; simpl; intros Hd s1 s2; try discriminate.
    + exact (IH Hd s1 s2).
    + destruct s1, s2; try reflexivity. unfold ngc_is_equal. rewrite Hd. reflexivity.
Qed.

(** C2 (code bug): [predict_next] is not free of effects. One call, by
    a caller that does not mutate the result, leaves the predictor
    unchanged except in three cases: [NgramizePredictor] stores a new
    [cur_unk_score], after which a second call returns the same posterior
    and leaves the predictor as it is; [NBLengthPredictor] without point
    probabilities (possibly under weighting wrappers), once a word is
    consumed, appends the point log-probability at
    [max(1, n_consumed - offset)] to [prev_eos_probs] in its state; and a
    [WeightNonTerminalPredictor] over a [WordCountPredictor] keeps its
    state but replaces the word count dict by the weighted posterior it
    returns, so that the next call weights it again. *)
Theorem predict_next_frame (p : pred (F:=F)) :
  let '(post, p1) := predict_step p in
  (predict_frame p = FrPure -> p1 = p) /\
  (predict_frame p = FrIdem ->
     predict_step p1 = (post, p1) /\
     exists h u u', get_state p = StNgz h u /\ get_state p1 = StNgz h u') /\
  (predict_frame p = FrAppend ->
     exists o, inner_pred p = PNB o /\ get_state p = StNB (nb_n_consumed o) (nb_prev_eos_probs o) /\
       get_state p1 = StNB (nb_n_consumed o) (nb_prev_eos_probs o ++
         [nb_eos_point_prob (nb_cur_r o) (nb_cur_p o)
            (Z.max 1 (Z.of_nat (nb_n_consumed o) - nb_offset (nb_cfg_of o)))])) /\
  (predict_frame p = FrAlias ->
     get_state p1 = get_state p /\ own_dict p1 = Some post).
Proof.
  induction p as [o|o|m s IH|o|o|o|o].
  - unfold predict_step; simpl. unfold nb_predict_next.
    destruct (nb_n_consumed o) as [|n] eqn:En.
    + simpl. destruct (nb_use_point_probs (nb_cfg_of o));
        (split; [reflexivity | split; [|split]; intros; discriminate]).
    + unfold nb_get_eos_prob. rewrite En.
      destruct (nb_use_point_probs (nb_cfg_of o)) eqn:Ep; simpl.
      * split; [|split; [|split]; intros; discriminate].
        intros _. destruct o; simpl in *; subst; reflexivity.
      * destruct (nb_prev_eos_probs o) as [|e0 l] eqn:Eprev; simpl;
          (split; [intros; discriminate|]); (split; [intros; discriminate|]);
          (split; [|intros; discriminate]); intros _;
          exists o; rewrite En, Eprev; repeat split; reflexivity.
  - unfold predict_step; simpl. split; [|split; [|split]; intros; discriminate].
    intros _. destruct o; reflexivity.
  - simpl. destruct (returns_own_dict s) eqn:Ef.
    + unfold predict_step; simpl.
      pose proof (own_dict_next s) as Ho.
      destruct (predict_next s) as [post k] eqn:Es; simpl in *.
      split; [intros; discriminate|]. split; [intros; discriminate|].
      split; [intros; discriminate|]. intros _.
      destruct (Ho (weight_apply m post) Ef) as [Ho1 Ho2]. split; assumption.
    + rewrite (predict_step_weight m s Ef).
      destruct (predict_step s) as [post1 s1] eqn:Es; simpl in *.
      destruct IH as (IH1 & IH2 & IH3 & IH4).
      split; [intros Hp; rewrite (IH1 Hp); reflexivity|].
      split; [|split; [exact IH3 | intros Hp; rewrite (predict_frame_alias s Hp) in Ef; discriminate]].
      intros Hp. destruct (IH2 Hp) as [IHa IHb]. split; [|exact IHb].
      assert (Ef1 : returns_own_dict s1 = false).
      { pose proof (returns_own_dict_next s post1) as R.
        unfold predict_step in Es. destruct (predict_next s) as [pp k]; simpl in *.
        injection Es as <- <-. rewrite R. exact Ef. }
      rewrite (predict_step_weight m s1 Ef1), IHa. reflexivity.
  - unfold predict_step; simpl. split; [reflexivity|split; [|split]; intros; discriminate].
  - unfold predict_step; simpl. split; [reflexivity|split; [|split]; intros; discriminate].
  - unfold predict_step; simpl. split; [reflexivity|split; [|split]; intros; discriminate].
  - unfold predict_step; simpl. destruct (ngz_predict_next o) as [post u] eqn:E; simpl.
    split; [intros; discriminate|]. split; [|split; intros; discriminate]. intros _.
    split.
    + assert (ngz_predict_next (ngz_with_state o (ngz_history o) u) = ngz_predict_next o)
        as -> by reflexivity.
      rewrite E. reflexivity.
    + eauto.
Qed.

(** C9 (code bug): for a predictor [p] reached by [initialize] and any
    sequence of [consume] and [predict_next] calls,
    [set_state(get_state())] on [p] itself yields [p] again, so the next
    [predict_next] output is that of [p]. On the predictor [p0] freshly
    initialized the same way it yields [p] too, unless [p0] is a
    [WeightNonTerminalPredictor] over a [WordCountPredictor] and a
    [predict_next] call happened: that wrapper weights the slave's dict in
    place, and [WordCountPredictor.get_state] records nothing of it.
    [get_state] values are snapshots here; in the source the
    [NBLengthPredictor] state holds its [prev_eos_probs] list object, so
    a restored instance shares it with the original and a later
    [predict_next] on either appends to both. The predictor restored from
    a state behaves as the one the state was taken from, which is what is
    stated. *)
Theorem state_round_trip (fuel : nat) (c : cfg) (sid : nat) (src : list Z)
    (p0 : pred (F:=F)) (acts : list action) :
  initialize fuel c sid src = Some p0 ->
  let p := run_actions p0 acts in
  set_state p (get_state p) = Some p /\
  option_map (fun q => fst (predict_next q)) (set_state p (get_state p)) = Some (fst (predict_next p)) /\
  ((weights_own_dict p0 = false \/ ~ In APred acts) ->
   set_state p0 (get_state p) = Some p /\
   option_map (fun q => fst (predict_next q)) (set_state p0 (get_state p)) = Some (fst (predict_next p))).
Proof.
  intros _ p.
  assert (H1 : set_state p (get_state p) = Some p) by apply set_get_same.
  rewrite H1. split; [reflexivity|]. split; [reflexivity|].
  intros Hc. assert (H2 : set_state p0 (get_state p) = Some p) by (apply restores_actions, Hc).
  rewrite H2. split; reflexivity.
Qed.

End Claims_interface.

(** ** Concrete runs for the interface claims *)

(** C1 counterexample: [NgramCountPredictor] with [discount_factor = 0.0]
    (a value [>= 0]) refuses to recombine a state with itself. *)
Lemma is_equal_self_counterexample :
  exists p, initialize 0 (CNgc (ngc_unigrams (F:=xR) (fofQ 0))) 0 [] = Some p /\
            is_equal p (get_state p) (get_state p) = false.
Proof.
  eexists. split; [reflexivity|].
  cbn. unfold ngc_is_equal, discounting. cbn.
  destruct (Rlt_dec _ _); [reflexivity|].
  destruct (Req_dec_T _ _) as [|Hne]; [reflexivity|]. exfalso. apply Hne. reflexivity.
Qed.

(** C2 counterexample: [WeightNonTerminalPredictor] with
    [penalty_factor = 2.0] over [WordCountPredictor] with
    [nonterminal_penalty = True], both with [min_terminal_id = 4],
    [max_terminal_id = 10] and [vocab_size = 12]: two consecutive
    [predict_next] calls score the nonterminal 3 with [-2.0] and then
    [-4.0], while [get_state()] does not change. *)
Lemma predict_next_frame_counterexample :
  exists o m p, wc_construct (-1) true None 4 10 true 12 = Some o /\
    weight_mult (fofQ 2) None 4 10 12 = Some m /\
    initialize 0 (CWeight m (CWC o)) 0 [] = Some p /\
    fst (predict_step p) !! 3 = Some (XF (-2)) /\
    get_state (snd (predict_step p)) = get_state p /\
    fst (predict_step (snd (predict_step p))) !! 3 = Some (XF (-4)).
Proof.
  do 3 eexists. split; [reflexivity|]. split; [reflexivity|]. split; [reflexivity|].
  split; [|split; [reflexivity|]]; vm_compute; do 2 f_equal; change R1 with 1%R; rewrite Rinv_1; ring.
Qed.


(** ** UnkCountPredictor *)

Section Unk.
Context {F : Type} `{PyFloat F}.

Lemma unk_inv_consume l m mp (o : unk_obj (F:=F)) w :
  unk_inv l m mp o -> unk_inv l m mp (unk_consume o w) /\
  unk_n_consumed (unk_consume o w) = S (unk_n_consumed o).
Proof.
  intros (Hl & Hm & Hp & Hu). unfold unk_consume, unk_inv.
  destruct (w =? UNK_ID); simpl; rewrite ?Hl; auto.
Qed.

Lemma unk_inv_run l m mp (o : unk_obj (F:=F)) ws :
  unk_inv l m mp o -> unk_inv l m mp (fold_left unk_consume ws o) /\
  unk_n_consumed (fold_left unk_consume ws o) = (length ws + unk_n_consumed o)%nat.
Proof.
  revert o. induction ws as [|w ws IH]; intros o Ho; simpl; [auto|].
  destruct (unk_inv_consume l m mp o w Ho) as [H1 H2].
  destruct (IH _ H1) as [H3 H4]. split; [exact H3|]. rewrite H4, H2. lia.
Qed.

(** C3 (corrected): after [initialize], the mode index [m] is [t] or
    [t + 1] for [t = int(lambda)], whichever has the larger
    log-probability (ties to [t]), and [max_prob = logpois(m)]. Before any
    [consume], [predict_next] scores EOS at [logpois(1)], the initial
    [unk_prob], not at [logpois(m)] (the mode's value is what
    [get_unk_probability] returns then). Once words are consumed and while
    the unknown count [k] is below [m], EOS is scored
    [logpois(k + 1) - logpois(m)]. *)
Theorem unk_predict_scores (c : unk_cfg) (src : list Z) (o : unk_obj (F:=F)) (ws : list Z) :
  unk_initialize c src = Some o ->
  let l := unk_l o in
  let m := unk_max_prob_idx o in
  let o' := fold_left unk_consume ws o in
  (exists t, ftrunc l = Some t /\
     m = (if fltb (get_poisson_prob l t) (get_poisson_prob l (t + 1)) then t + 1 else t)) /\
  unk_max_prob o = get_poisson_prob l m /\
  (ws = [] -> unk_predict_next o' = {[EOS_ID := get_poisson_prob l 1]} /\
              unk_get_unk_probability o' = get_poisson_prob l m) /\
  (ws <> [] -> Z.of_nat (unk_n_unk o') < m ->
     unk_predict_next o' =
       {[EOS_ID := fsub (get_poisson_prob l (Z.of_nat (unk_n_unk o') + 1)) (get_poisson_prob l m)]}).
Proof.
  intros Hi. cbv zeta.
  assert (Ho : unk_inv (unk_l o) (unk_max_prob_idx o) (unk_max_prob o) o /\
               unk_n_consumed o = 0%nat /\ unk_n_unk o = 0%nat /\
               unk_max_prob o = get_poisson_prob (unk_l o) (unk_max_prob_idx o) /\
               exists t, ftrunc (unk_l o) = Some t /\
                 unk_max_prob_idx o =
                   (if fltb (get_poisson_prob (unk_l o) t) (get_poisson_prob (unk_l o) (t + 1))
                    then t + 1 else t)).
  { unfold unk_initialize in Hi.
    destruct (nth_error _ _) as [lam|]; [|discriminate].
    destruct (ftrunc lam) as [t|] eqn:Et; [|discriminate].
    destruct (fltb (get_poisson_prob lam t) (get_poisson_prob lam (t + 1))) eqn:Eb;
      injection Hi as <-; unfold unk_inv; simpl;
      (refine (conj (conj eq_refl (conj eq_refl (conj eq_refl eq_refl)))
                    (conj eq_refl (conj eq_refl (conj eq_refl _)))));
      exists t; rewrite Eb; auto. }
  destruct Ho as (Hinv & Hn & Hk & Hmp & Ht).
  split; [exact Ht|]. split; [exact Hmp|].
  destruct (unk_inv_run _ _ _ o ws Hinv) as [(Hl' & Hm' & Hp' & Hu') Hn'].
  rewrite Hn in Hn'. split.
  - intros ->. simpl. unfold unk_predict_next, unk_get_unk_probability.
    rewrite Hn. destruct Hinv as (_ & _ & _ & Hu). rewrite Hu, Hk. auto.
  - intros Hne Hlt. unfold unk_predict_next.
    destruct ws as [|w ws]; [congruence|].
    rewrite Hn'. destruct (length (w :: ws) + 0)%nat eqn:E; [simpl in E; lia|].
    rewrite Hm', (proj2 (Z.ltb_lt _ _) Hlt), Hu', Hp', Hmp. reflexivity.
Qed.

End Unk.

(** ** Evaluation lemmas of the real-number semantics *)


Lemma x_trunc_frac (r : R) : (0 < r < 1)%R -> x_trunc (XF r) = Some 0.
Proof.
  intros Hr. unfold x_trunc. destruct (Rle_dec 0 r) as [_|]; [|exfalso; lra].
  unfold Int_part. rewrite <- (tech_up r 1); [reflexivity| simpl; lra | simpl; lra].
Qed.

Lemma x_ltb_not (a b : R) : ~ (a < b)%R -> x_ltb (XF a) (XF b) = false.
Proof. intros Hn. unfold x_ltb. destruct (Rlt_dec a b); [contradiction|reflexivity]. Qed.

Lemma Q2R_inject_Z (z : Z) : Q2R (inject_Z z) = IZR z.
Proof. unfold Q2R, inject_Z. simpl. field. Qed.

Lemma pois_xR0_0 (h : R) : (0 < h)%R -> @get_poisson_prob xR xR0 (XF h) 0 = XF (- h).
Proof.
  intros Hh. unfold get_poisson_prob, py_range, py_sum. simpl.
  destruct (Rlt_dec 0 h); [|contradiction]. simpl.
  rewrite Q2R_inject_Z. f_equal. simpl. ring.
Qed.

Lemma pois_xR0_1 (h : R) : (0 < h)%R -> @get_poisson_prob xR xR0 (XF h) 1 = XF (ln h - h).
Proof.
  intros Hh. unfold get_poisson_prob, py_range, py_sum. simpl.
  destruct (Rlt_dec 0 h); [|contradiction]. simpl.
  rewrite !Q2R_inject_Z. change (0 + Z.of_nat 0 + 1) with 1. simpl IZR.
  destruct (Rlt_dec 0 1) as [_|]; [|lra]. simpl. rewrite ln_1. f_equal. ring.
Qed.

Lemma ln_frac_neg (h : R) : (0 < h < 1)%R -> (ln h < 0)%R.
Proof. intros Hh. rewrite <- ln_1. apply ln_increasing; lra. Qed.

Lemma half_bounds : (0 < Q2R (1 # 2) < 1)%R.
Proof. unfold Q2R. simpl. lra. Qed.

(** [UnkCountPredictor] with one lambda [0 < h < 1]: the mode index is 0. *)
Lemma unk_initialize_frac (h : R) : (0 < h < 1)%R ->
  @unk_initialize xR xR0 {| unk_src_vocab_size := 0; unk_lambdas := [XF h] |} [] =
  Some {| unk_cfg_of := {| unk_src_vocab_size := 0; unk_lambdas := [XF h] |};
          unk_l := XF h; unk_max_prob_idx := 0; unk_max_prob := XF (- h);
          unk_n_unk := 0; unk_n_consumed := 0;
          unk_unk_prob := XF (ln h - h); unk_consumed_prob := XF (- h) |}.
Proof.
  intros Hh. unfold unk_initialize. cbn -[get_poisson_prob x_trunc x_ltb].
  rewrite x_trunc_frac by exact Hh. change (0 + 1) with 1.
  rewrite pois_xR0_0, pois_xR0_1 by lra.
  pose proof (ln_frac_neg h Hh).
  rewrite x_ltb_not by lra. reflexivity.
Qed.

(** C3 counterexample: with the single lambda [0.5] and no unknown source
    word, the mode index is [m = 0], but before any [consume]
    [predict_next] scores EOS at [logpois(1) = ln 0.5 - 0.5], not at
    [logpois(0) = -0.5]. *)
Lemma unk_predict_scores_counterexample :
  exists o, initialize 0 (CUnk {| unk_src_vocab_size := 0; unk_lambdas := [fofQ (1 # 2)] |}) 0 []
              = Some (PUnk o) /\
    unk_max_prob_idx o = 0 /\
    fst (predict_step (PUnk o)) <> {[EOS_ID := get_poisson_prob (unk_l o) (unk_max_prob_idx o)]}.
Proof.
  eexists. split.
  - cbn [initialize]. unfold fofQ. cbn [xR0 xR_float].
    rewrite (unk_initialize_frac _ half_bounds). reflexivity.
  - split; [reflexivity|]. cbn -[get_poisson_prob].
    rewrite pois_xR0_0 by (pose proof half_bounds; lra).
    pose proof (ln_frac_neg _ half_bounds).
    intros Heq. apply (f_equal (lookup EOS_ID)) in Heq.
    change EOS_ID with 2 in Heq. rewrite !lookup_insert in Heq. injection Heq. lra.
Qed.

(** [int()] of a non-negative finite float in [[z, z + 1)]. *)
Lemma x_trunc_int (r : R) (z : Z) : (0 <= IZR z <= r /\ r < IZR z + 1)%R -> x_trunc (XF r) = Some z.
Proof.
  intros Hr. unfold x_trunc. destruct (Rle_dec 0 r) as [_|]; [|exfalso; lra].
  unfold Int_part. rewrite <- (tech_up r (z + 1)); [f_equal; lia| |];
    rewrite plus_IZR; simpl; lra.
Qed.

(** [UnkCountPredictor] with one lambda [1 <= h < 2]: the mode index is 1. *)
Lemma unk_initialize_one (h : R) : (1 <= h < 2)%R ->
  @unk_initialize xR xR0 {| unk_src_vocab_size := 0; unk_lambdas := [XF h] |} [] =
  Some {| unk_cfg_of := {| unk_src_vocab_size := 0; unk_lambdas := [XF h] |};
          unk_l := XF h; unk_max_prob_idx := 1; unk_max_prob := XF (ln h - h);
          unk_n_unk := 0; unk_n_consumed := 0;
          unk_unk_prob := XF (ln h - h); unk_consumed_prob := XF (ln h - h) |}.
Proof.
  intros Hh. unfold unk_initialize. cbn -[get_poisson_prob x_trunc x_ltb].
  rewrite (x_trunc_int h 1) by (simpl; lra). change (1 + 1) with 2.
  rewrite pois_xR0_1 by lra.
  replace (@get_poisson_prob xR xR0 (XF h) 2) with (XF (2 * ln h - h - ln 2)).
  - rewrite x_ltb_not; [reflexivity|].
    assert (ln h < ln 2)%R by (apply ln_increasing; lra). lra.
  - unfold get_poisson_prob, py_range, py_sum. simpl.
    destruct (Rlt_dec 0 h); [|lra]. simpl.
    rewrite !Q2R_inject_Z.
    change (0 + Z.of_nat 0 + 1) with 1. change (0 + Z.of_nat 1 + 1) with 2.
    destruct (Rlt_dec 0 1) as [_|]; [|lra].
    destruct (Rlt_dec 0 2) as [_|]; [|lra]. simpl. rewrite ln_1. f_equal. ring.
Qed.

Lemma three_halves_bounds : (1 <= Q2R (3 # 2) < 2)%R.
Proof. unfold Q2R. simpl. lra. Qed.

(** Witness of C3 with the single lambda [1.5]: the mode index is 1, and
    after the consumed word 7 (not unknown) the unknown count 0 is below
    it, so EOS is scored [logpois(1) - logpois(1)]. *)
Lemma unk_predict_scores_witness :
  exists o, unk_initialize {| unk_src_vocab_size := 0; unk_lambdas := [fofQ (3 # 2)] |} [] = Some o /\
    unk_max_prob_idx o = 1 /\
    unk_predict_next (fold_left unk_consume [7] o) =
      {[EOS_ID := fsub (get_poisson_prob (unk_l o) 1) (get_poisson_prob (unk_l o) 1)]}.
Proof.
  assert (Hi : unk_initialize {| unk_src_vocab_size := 0; unk_lambdas := [fofQ (3 # 2)] |} []
    = Some {| unk_cfg_of := {| unk_src_vocab_size := 0; unk_lambdas := [XF (Q2R (3 # 2))] |};
              unk_l := XF (Q2R (3 # 2)); unk_max_prob_idx := 1;
              unk_max_prob := XF (ln (Q2R (3 # 2)) - Q2R (3 # 2));
              unk_n_unk := 0; unk_n_consumed := 0;
              unk_unk_prob := XF (ln (Q2R (3 # 2)) - Q2R (3 # 2));
              unk_consumed_prob := XF (ln (Q2R (3 # 2)) - Q2R (3 # 2)) |}).
  { unfold fofQ. cbn [xR0 xR_float]. exact (unk_initialize_one _ three_halves_bounds). }
  eexists. split; [exact Hi|]. split; [reflexivity|].
  destruct (unk_predict_scores _ [] _ [7] Hi) as (_ & _ & _ & H4). cbv zeta in H4.
  rewrite H4; [reflexivity | discriminate | reflexivity].
Defined.

(** ** NBLengthPredictor *)

Section NB.
Context {F : Type} `{PyFloat F}.

Lemma py_index_neg_some {A} (l : list A) (k : nat) :
  (1 <= k <= length l)%nat -> exists x, py_index_neg l k = Some x.
Proof.
  intros Hk. unfold py_index_neg.
  rewrite (proj2 (Nat.leb_le k (length l))) by lia.
  destruct (nth_error l (length l - k)) eqn:E; [eauto|].
  apply nth_error_None in E. lia.
Qed.

Lemma np_dot_some (xs ys : list F) :
  length xs = length ys -> exists v, np_dot xs ys = Some v.
Proof. intros Hl. unfold np_dot. rewrite Hl, Nat.eqb_refl. eauto. Qed.

Lemma np_dot_none (xs ys : list F) :
  length xs <> length ys -> np_dot xs ys = None.
Proof. intros Hl. unfold np_dot. rewrite (proj2 (Nat.eqb_neq _ _) Hl). reflexivity. Qed.

Lemma nb_features_ab :
  exists f, nb_extract_features (F:=F) [py_str "a b"] = Some [f] /\ length f = NUM_FEATURES.
Proof. eexists. split; reflexivity. Qed.

(** C4 (code bug): [logging.fatal] only writes a log record. A weight
    list of 11 or more entries builds a predictor; [initialize] on a
    sentence fails only where [math.exp(-p)] overflows (with [p] the dot
    product of the features and the [p] weights), and otherwise gives a
    predictor that scores EOS once a word is consumed. A list of 2 to 9
    entries builds a predictor whose [initialize] fails ([np.dot] of
    arrays of different lengths). *)
Theorem nb_construct_bad_length (mw : list F) :
  ((11 <= length mw)%nat ->
     exists c dp, nb_construct [py_str "a b"] mw false 0 = Some c /\
       np_dot (hd [] (nb_src_features c) ++ [fofQ 1]) (nb_p_weights c) = Some dp /\
       (math_exp (fopp dp) = None -> initialize 0 (CNB c) 0 [] = None) /\
       (forall e, math_exp (fopp dp) = Some e ->
          exists p s, initialize 0 (CNB c) 0 [] = Some p /\
            fst (predict_step (consume p 5)) = {[EOS_ID := s]})) /\
  ((2 <= length mw <= 9)%nat ->
     exists c, nb_construct [py_str "a b"] mw false 0 = Some c /\
       initialize 0 (CNB c) 0 [] = None).
Proof.
  destruct nb_features_ab as (f & Ef & Lf).
  assert (Hc : (2 <= length mw)%nat -> length mw <> 10%nat ->
     exists wr wp, nb_construct [py_str "a b"] mw false 0 =
       Some {| nb_use_point_probs := false; nb_offset := 0;
               nb_r_weights := firstn NUM_FEATURES mw ++ [wr];
               nb_p_weights := firstn NUM_FEATURES (skipn NUM_FEATURES mw) ++ [wp];
               nb_src_features := [f] |}).
  { intros H2 H10. unfold nb_construct.
    replace (length mw =? 2 * NUM_FEATURES)%nat with false
      by (symmetry; apply Nat.eqb_neq; unfold NUM_FEATURES; lia).
    destruct (py_index_neg_some mw 2) as [wr ->]; [lia|].
    destruct (py_index_neg_some mw 1) as [wp ->]; [lia|].
    rewrite Ef. eauto. }
  split.
  - intros Hl. destruct (Hc ltac:(lia) ltac:(lia)) as (wr & wp & Ec).
    destruct (np_dot_some (f ++ [fofQ 1]) (firstn NUM_FEATURES mw ++ [wr])) as [dr Er].
    { rewrite !length_app, length_firstn, Lf. unfold NUM_FEATURES. cbn [length]. lia. }
    destruct (np_dot_some (f ++ [fofQ 1]) (firstn NUM_FEATURES (skipn NUM_FEATURES mw) ++ [wp]))
      as [dp Ep].
    { rewrite !length_app, length_firstn, length_skipn, Lf. unfold NUM_FEATURES. cbn [length]. lia. }
    exists {| nb_use_point_probs := false; nb_offset := 0;
              nb_r_weights := firstn NUM_FEATURES mw ++ [wr];
              nb_p_weights := firstn NUM_FEATURES (skipn NUM_FEATURES mw) ++ [wp];
              nb_src_features := [f] |}, dp.
    split; [exact Ec|]. split; [exact Ep|]. split.
    + intros Hn. simpl. unfold nb_initialize. simpl nth_error. cbv beta iota.
      cbn [nb_r_weights nb_p_weights nb_src_features nb_use_point_probs].
      rewrite Er, Ep, Hn. reflexivity.
    + intros e He. do 2 eexists. split.
      * simpl. unfold nb_initialize. simpl nth_error. cbv beta iota.
        cbn [nb_r_weights nb_p_weights nb_src_features nb_use_point_probs].
        rewrite Er, Ep, He. reflexivity.
      * reflexivity.
  - intros Hl. destruct (Hc ltac:(lia) ltac:(lia)) as (wr & wp & Ec).
    eexists. split; [exact Ec|].
    simpl. unfold nb_initialize. simpl nth_error. cbv beta iota. cbn [nb_r_weights nb_p_weights nb_src_features nb_use_point_probs].
    rewrite (np_dot_none (f ++ [fofQ 1]) (firstn NUM_FEATURES (skipn NUM_FEATURES mw) ++ [wp])).
    + destruct (np_dot _ _); reflexivity.
    + rewrite !length_app, length_firstn, length_skipn, Lf. unfold NUM_FEATURES. cbn [length]. lia.
Qed.

Lemma nb_analyse_sentence_none (s : pystr) :
  nb_analyse_sentence (F:=F) s = None <-> py_split s = [].
Proof.
  unfold nb_analyse_sentence. destruct (py_split s) eqn:E; simpl; split; intros Hs;
    try reflexivity; discriminate.
Qed.

Lemma nb_analyse_sentence_length (s : pystr) f :
  nb_analyse_sentence (F:=F) s = Some f -> length f = NUM_FEATURES.
Proof.
  unfold nb_analyse_sentence. destruct (Nat.eqb _ 0); [discriminate|].
  intros Hf; injection Hf as <-. reflexivity.
Qed.

(** C10: feature extraction succeeds exactly when every line holds at
    least one word after [strip()], and then yields five features per
    line; a line without words makes the construction fail, whatever the
    weights. *)
Theorem nb_features_defined (lines : list pystr) :
  (nb_extract_features (F:=F) lines = None <->
     Exists (fun line => py_split (py_strip line) = []) lines) /\
  (Exists (fun line => py_split (py_strip line) = []) lines ->
     forall mw use_point_probs offset, nb_construct lines mw use_point_probs offset = None) /\
  (Forall (fun line => py_split (py_strip line) <> []) lines ->
     exists feats, nb_extract_features (F:=F) lines = Some feats /\
       length feats = length lines /\ Forall (fun f => length f = NUM_FEATURES) feats).
Proof.
  assert (Hnone : nb_extract_features (F:=F) lines = None <->
                  Exists (fun line => py_split (py_strip line) = []) lines).
  { unfold nb_extract_features. induction lines as [|l ls IH]; simpl.
    - split; [discriminate|]. intros Hx. inversion Hx.
    - destruct (nb_analyse_sentence (py_strip l)) as [f|] eqn:E.
      + rewrite Exists_cons. split.
        * intros Hn. right. apply IH. destruct (map_option _ ls); [discriminate|reflexivity].
        * intros [Hl|Hl].
          -- apply nb_analyse_sentence_none in Hl. congruence.
          -- apply IH in Hl. rewrite Hl. reflexivity.
      + split; [intros _; left; apply nb_analyse_sentence_none, E|reflexivity]. }
  split; [exact Hnone|]. split.
  - intros Hx mw up off. unfold nb_construct.
    apply Hnone in Hx. rewrite Hx.
    repeat match goal with |- context [py_index_neg ?l ?k] => destruct (py_index_neg l k) end;
      reflexivity.
  - clear Hnone. unfold nb_extract_features. induction lines as [|l ls IH]; simpl; intros Hall.
    + exists []. auto.
    + inversion Hall as [|? ? Hl Hls]; subst.
      destruct (nb_analyse_sentence (py_strip l)) as [f|] eqn:E.
      * destruct (IH Hls) as (feats & Ef & Lf & Ff). rewrite Ef. simpl.
        exists (f :: feats). split; [reflexivity|]. split; [simpl; lia|].
        constructor; [exact (nb_analyse_sentence_length _ _ E)|exact Ff].
      * apply nb_analyse_sentence_none in E. contradiction.
Qed.

End NB.

(** Witness of C4: eleven zero weights. *)
(** The features of the sentence ['a b'] over the real numbers. *)
Lemma nb_features_ab_xR :
  nb_extract_features (F:=xR) [py_str "a b"] = Some [[XF 3; XF 2; XF 0; XF (3 / 2); XF 0]].
Proof.
  vm_compute. repeat destruct (Req_dec_T _ _) as [?Hr|?Hr]; try (exfalso; lra).
  repeat f_equal; lra.
Qed.

Lemma DBL_MAX_bounds : (1 < DBL_MAX < 2 ^ 1024)%R.
Proof.
  unfold DBL_MAX.
  assert (H52 : (1 <= 2 ^ 52)%R) by (apply pow_R1_Rle; lra).
  assert (Hi : (0 < / 2 ^ 52 <= 1)%R).
  { split; [apply Rinv_0_lt_compat; lra|].
    rewrite <- Rinv_1. apply Rinv_le_contravar; lra. }
  assert (H1023 : (1 < 2 ^ 1023)%R) by (apply Rlt_pow_R1; lia || lra).
  rewrite <- tech_pow_Rmult. nra.
Qed.

Lemma exp_ge_pow2 (n : nat) : (2 ^ n <= exp (INR n))%R.
Proof.
  induction n as [|n IH].
  - simpl. rewrite exp_0. lra.
  - rewrite S_INR, exp_plus, <- tech_pow_Rmult.
    assert (2 < exp 1)%R by (pose proof (exp_ineq1 1 ltac:(lra)); lra).
    pose proof (pow_lt 2 n ltac:(lra)). nra.
Qed.

(** [math.exp] of a non-positive finite float does not overflow; from
    1024 on it does. *)
Lemma x_math_exp_nonpos (r : R) : (r <= 0)%R -> x_math_exp (XF r) = Some (XF (exp r)).
Proof.
  intros Hr. simpl. destruct (Rlt_dec DBL_MAX (exp r)) as [Hlt|]; [|reflexivity].
  exfalso. pose proof DBL_MAX_bounds.
  assert (exp r <= 1)%R.
  { destruct (Req_dec r 0) as [->|Hne]; [rewrite exp_0; lra|].
    rewrite <- exp_0. left. apply exp_increasing. lra. }
  lra.
Qed.

Lemma x_math_exp_overflow (r : R) : (1024 <= r)%R -> x_math_exp (XF r) = None.
Proof.
  intros Hr. simpl. destruct (Rlt_dec DBL_MAX (exp r)) as [|Hn]; [reflexivity|].
  exfalso. apply Hn. pose proof DBL_MAX_bounds. pose proof (exp_ge_pow2 1024) as He.
  replace (INR 1024) with 1024%R in He by (rewrite INR_IZR_INZ; reflexivity).
  assert (exp 1024 <= exp r)%R.
  { destruct (Req_dec r 1024) as [->|Hne]; [lra|]. left. apply exp_increasing. lra. }
  lra.
Qed.

(** [initialize] on [nb_zero_cfg]. *)
Lemma nb_zero_initialize :
  exists r q, nb_initialize 0 nb_zero_cfg 0 =
    Some {| nb_cfg_of := nb_zero_cfg; nb_cur_r := r; nb_cur_p := q;
            nb_max_eos_prob := NEG_INF; nb_n_consumed := 0; nb_prev_eos_probs := [] |}.
Proof.
  do 2 eexists. unfold nb_initialize. cbn -[x_math_exp].
  rewrite x_math_exp_nonpos; [reflexivity|]. unfold Q2R; simpl. lra.
Qed.

(** Witness of C9 on a [WeightNonTerminalPredictor] over an
    [NBLengthPredictor] without point probabilities: after consume,
    predict, consume, predict, [prev_eos_probs] holds two entries, and both
    round trips reproduce the predictor. *)
Lemma state_round_trip_witness :
  exists p0, initialize 0 (CWeight ∅ (CNB nb_zero_cfg)) 0 [] = Some p0 /\
    weights_own_dict p0 = false /\
    (exists n prev, get_state (run_actions p0 [ACons 4; APred; ACons 7; APred]) = StNB n prev /\
                    length prev = 2%nat) /\
    (let p := run_actions p0 [ACons 4; APred; ACons 7; APred] in
     set_state p (get_state p) = Some p /\
     option_map (fun q => fst (predict_next q)) (set_state p (get_state p)) = Some (fst (predict_next p)) /\
     set_state p0 (get_state p) = Some p /\
     option_map (fun q => fst (predict_next q)) (set_state p0 (get_state p)) = Some (fst (predict_next p))).
Proof.
  destruct nb_zero_initialize as (r & q & Hi).
  assert (Hi' : initialize 0 (CWeight ∅ (CNB nb_zero_cfg)) 0 [] =
    Some (PWeight ∅ (PNB {| nb_cfg_of := nb_zero_cfg; nb_cur_r := r; nb_cur_p := q;
            nb_max_eos_prob := NEG_INF; nb_n_consumed := 0; nb_prev_eos_probs := [] |})))
    by (simpl; rewrite Hi; reflexivity).
  eexists. split; [exact Hi'|]. split; [reflexivity|].
  split; [do 2 eexists; split; reflexivity|].
  destruct (state_round_trip 0 _ 0 [] _ [ACons 4; APred; ACons 7; APred] Hi') as (H1 & H2 & H3).
  destruct (H3 (or_introl eq_refl)) as [H4 H5].
  repeat split; assumption.
Defined.

(** Counterexample to the fresh-instance round trip of C9: a
    [WeightNonTerminalPredictor] (factor 2 on tokens below 4) over a
    [WordCountPredictor] with non-terminal penalty. After one
    [predict_next], the original scores token 3 with [-4.0] next; a fresh
    instance given its state scores it with [-2.0]. *)
Lemma state_round_trip_counterexample :
  exists o m p0, wc_construct (-1) true None 4 10 true 12 = Some o /\
    weight_mult (fofQ 2) None 4 10 12 = Some m /\
    initialize 0 (CWeight m (CWC o)) 0 [] = Some p0 /\
    option_map (fun q => fst (predict_next q) !! 3) (set_state p0 (get_state (run_actions p0 [APred])))
      = Some (Some (XF (-2))) /\
    fst (predict_next (run_actions p0 [APred])) !! 3 = Some (XF (-4)).
Proof.
  do 3 eexists. split; [reflexivity|]. split; [reflexivity|]. split; [reflexivity|].
  split; vm_compute; do 3 f_equal; change R1 with 1%R; rewrite Rinv_1; ring.
Qed.

(** Witness of C4 on the sentence ['a b']: eleven zero weights build a
    predictor that scores EOS; the weights [[0]*5 + [-1000]*5 + [0]] give
    [p = -6500], and [initialize] fails in [math.exp(6500)]. *)
Lemma nb_construct_bad_length_witness :
  (11 <= length (repeat (fofQ 0) 11))%nat /\
  (exists c p s, nb_construct [py_str "a b"] (repeat (fofQ 0) 11) false 0 = Some c /\
     initialize 0 (CNB c) 0 [] = Some p /\
     fst (predict_step (consume p 5)) = {[EOS_ID := s]}) /\
  (11 <= length (repeat (fofQ 0) 5 ++ repeat (fofQ (-1000)) 5 ++ [fofQ 0]))%nat /\
  (exists c, nb_construct [py_str "a b"] (repeat (fofQ 0) 5 ++ repeat (fofQ (-1000)) 5 ++ [fofQ 0])
               false 0 = Some c /\
     initialize 0 (CNB c) 0 [] = None).
Proof.
  split; [simpl; lia|]. split.
  - destruct (proj1 (nb_construct_bad_length (F:=xR) (repeat (fofQ 0) 11)) ltac:(simpl; lia))
      as (c & dp & Ec & Ed & _ & Hs).
    pose proof Ec as Ec'. unfold nb_construct in Ec'. rewrite nb_features_ab_xR in Ec'.
    vm_compute in Ec'. injection Ec' as Ec'. subst c.
    vm_compute in Ed. injection Ed as <-.
    edestruct Hs as (p & s & Ep & Es).
    { apply x_math_exp_nonpos. change R1 with 1%R. rewrite Rinv_1. lra. }
    do 3 eexists. split; [exact Ec|]. split; eassumption.
  - split; [simpl; lia|].
    destruct (proj1 (nb_construct_bad_length (F:=xR)
                (repeat (fofQ 0) 5 ++ repeat (fofQ (-1000)) 5 ++ [fofQ 0])) ltac:(simpl; lia))
      as (c & dp & Ec & Ed & Hn & _).
    pose proof Ec as Ec'. unfold nb_construct in Ec'. rewrite nb_features_ab_xR in Ec'.
    vm_compute in Ec'. injection Ec' as Ec'. subst c.
    vm_compute in Ed. injection Ed as <-.
    eexists. split; [exact Ec|]. apply Hn.
    apply x_math_exp_overflow. change R1 with 1%R. rewrite ?Rinv_1. lra.
Defined.


Section NB_score.
Context {F : Type} `{PyFloat F}.

(** C7: once a word is consumed, the EOS score of [NBLengthPredictor] is
    built on [lgamma(n+r) - lgamma(n+1) - lgamma(r) + n ln p + r ln(1-p)]
    at [n = max(1, n_consumed - offset)]: minus [max_eos_prob] with point
    probabilities, as is for the first call without them, and renormalised
    by the earlier point probabilities after that. With [r = 2], [p = 0.5],
    [offset = 0] and three consumed words, the value is
    [lgamma(5) - lgamma(4) - lgamma(2) + 3 ln 0.5 + 2 ln 0.5]. *)
Theorem nb_eos_point_formula (o : nb_obj (F:=F)) :
  (1 <= nb_n_consumed o)%nat ->
  let n := Z.max 1 (Z.of_nat (nb_n_consumed o) - nb_offset (nb_cfg_of o)) in
  let r := nb_cur_r o in
  let p := nb_cur_p o in
  let logpmf := fadd (fadd (fsub (fsub (gammaln (fadd (fofZ n) r)) (gammaln (fofZ (n + 1))))
                                 (gammaln r))
                           (fmul (fofZ n) (flog p)))
                     (fmul r (flog (fsub (fofQ 1) p))) in
  (nb_use_point_probs (nb_cfg_of o) = true ->
     fst (nb_predict_next o) = {[EOS_ID := fsub logpmf (nb_max_eos_prob o)]}) /\
  (nb_use_point_probs (nb_cfg_of o) = false -> nb_prev_eos_probs o = [] ->
     fst (nb_predict_next o) = {[EOS_ID := logpmf]}) /\
  (nb_use_point_probs (nb_cfg_of o) = false -> nb_prev_eos_probs o <> [] ->
     fst (nb_predict_next o) =
       {[EOS_ID := fsub logpmf (flog (fsub (fofQ 1) (fexp (logsumexp (nb_prev_eos_probs o)))))]}) /\
  (forall lg : R -> R,
     fst (@nb_predict_next xR (xR_float lg) (nb_example_obj false [])) =
       {[EOS_ID := XF (lg 5 - lg 4 - lg 2 + 3 * ln 0.5 + 2 * ln 0.5)%R]}).
Proof.
  intros Hn n r p logpmf.
  assert (Hp : fst (nb_predict_next o) = {[EOS_ID := fst (nb_get_eos_prob o)]}).
  { unfold nb_predict_next. destruct (nb_n_consumed o) as [|k]; [lia|].
    destruct (nb_get_eos_prob o) as [e' prev']. reflexivity. }
  rewrite Hp. unfold nb_get_eos_prob.
  split; [|split; [|split]].
  - intros Hu. rewrite Hu. reflexivity.
  - intros Hu Hprev. rewrite Hu, Hprev. reflexivity.
  - intros Hu Hprev. rewrite Hu. destruct (nb_prev_eos_probs o); [congruence|reflexivity].
  - intros lg. unfold nb_predict_next, nb_get_eos_prob, nb_eos_point_prob. cbn.
    destruct (Rlt_dec 0 (1 / 2)); [|lra].
    destruct (Rlt_dec 0 (Q2R 1 + - (1 / 2))); [|unfold Q2R in *; simpl in *; lra].
    cbn. rewrite !Q2R_inject_Z. change (1 `max` (Z.of_nat 3 - 0)) with 3.
    change (3 + 1) with 4.
    replace (Q2R 1 + - (1 / 2))%R with 0.5%R by (unfold Q2R; simpl; lra).
    replace (1 / 2)%R with 0.5%R by lra.
    replace (IZR 3 + 2)%R with 5%R by lra.
    do 2 f_equal; ring.
Qed.

End NB_score.

(** Witness of C7 at the example state, without point probabilities. *)
Lemma nb_eos_point_formula_witness :
  (1 <= nb_n_consumed (nb_example_obj false []))%nat /\
  fst (nb_predict_next (nb_example_obj false [])) =
    {[EOS_ID := nb_eos_point_prob (XF 2) (XF (1 / 2)) 3]}.
Proof.
  split; [simpl; lia|].
  exact (proj1 (proj2 (nb_eos_point_formula (nb_example_obj false []) ltac:(simpl; lia)))
               eq_refl eq_refl).
Defined.

(** ** ExternalLengthPredictor *)

Section Ext.
Context {F : Type} `{PyFloat F}.

Lemma fold_max_spec (ks : list Z) (k : Z) :
  In (fold_left Z.max ks k) (k :: ks) /\ Forall (fun x => x <= fold_left Z.max ks k) (k :: ks).
Proof.
  revert k. induction ks as [|k' ks IH]; intros k; simpl.
  - split; [auto|]. constructor; [lia|constructor].
  - destruct (IH (Z.max k k')) as [Hin Hall]. split.
    + destruct Hin as [Hin|Hin]; [|auto].
      rewrite <- Hin. destruct (Z.max_spec k k') as [[_ ->]|[_ ->]]; auto.
    + inversion Hall as [|? ? Hm Hr]; subst.
      constructor; [lia|]. constructor; [lia|exact Hr].
Qed.

Lemma py_max_key_spec (d : gmap Z F) mx :
  py_max_key d = Some mx -> is_Some (d !! mx) /\ forall k, is_Some (d !! k) -> k <= mx.
Proof.
  unfold py_max_key. destruct (elements (dom d)) as [|k ks] eqn:E; [discriminate|].
  intros Hm; injection Hm as <-.
  destruct (fold_max_spec ks k) as [Hin Hall].
  split.
  - apply elem_of_dom. apply elem_of_elements. rewrite E. apply list_elem_of_In. exact Hin.
  - intros k' Hk'. apply elem_of_dom, elem_of_elements in Hk'. rewrite E in Hk'.
    rewrite Forall_forall in Hall. apply Hall, Hk'.
Qed.

Lemma ext_run (o : ext_obj (F:=F)) ws :
  run_consume (PExt o) ws = PExt (ext_with_state o (length ws + ext_n_consumed o)).
Proof.
  unfold run_consume. revert o. induction ws as [|w ws IH]; intros o; simpl.
  - destruct o; reflexivity.
  - rewrite IH. simpl. do 2 f_equal. lia.
Qed.

(** C8: after [initialize] on sentence [sid] and [k] consumed words,
    [max_length] is the largest tabulated length, [predict_next] maps EOS
    to the score of length [k] when [k] is tabulated and to [-inf]
    otherwise, and [get_unk_probability] is 0 while [k < max_length] and
    [-inf] after. On the line ["3:-1.0 5:-2.0"]: EOS scores [-1.0] after
    three words and [-inf] after four, and the UNK score is [-inf] from five
    words on. *)
Theorem ext_length_scores (c : ext_cfg) (sid : nat) (p0 : pred (F:=F)) (ws : list Z) :
  initialize 0 (CExt c) sid [] = Some p0 ->
  exists cur mx, nth_error (ext_trg_lengths c) sid = Some cur /\
    is_Some (cur !! mx) /\ (forall k, is_Some (cur !! k) -> k <= mx) /\
    let p := run_consume p0 ws in
    let k := Z.of_nat (length ws) in
    (forall sc, cur !! k = Some sc -> fst (predict_step p) = {[EOS_ID := sc]}) /\
    (cur !! k = None -> fst (predict_step p) = {[EOS_ID := NEG_INF]}) /\
    (forall post, get_unk_probability p post = Some (if k <? mx then fofQ 0 else NEG_INF)) /\
    (exists c1 q0, ext_construct [py_str "3:-1.0 5:-2.0"] = Some c1 /\
       initialize 0 (CExt c1) 0 [] = Some q0 /\
       fst (predict_step (run_consume q0 [7; 7; 7])) = {[EOS_ID := fofQ (-1)]} /\
       fst (predict_step (run_consume q0 [7; 7; 7; 7])) = {[EOS_ID := NEG_INF]} /\
       forall ws', (5 <= length ws')%nat ->
         forall post, get_unk_probability (run_consume q0 ws') post = Some NEG_INF).
Proof.
  simpl. unfold ext_initialize.
  destruct (nth_error (ext_trg_lengths c) sid) as [cur|] eqn:Ec; [|discriminate].
  destruct (py_max_key cur) as [mx|] eqn:Em; [|discriminate].
  intros Hp; injection Hp as <-.
  destruct (py_max_key_spec cur mx Em) as [Hin Hle].
  exists cur, mx. split; [reflexivity|]. split; [exact Hin|]. split; [exact Hle|].
  cbv zeta. rewrite ext_run. simpl ext_n_consumed. rewrite Nat.add_0_r.
  split; [|split; [|split]].
  - intros sc Hsc. unfold predict_step; simpl. unfold ext_predict_next; simpl. rewrite Hsc. reflexivity.
  - intros Hsc. unfold predict_step; simpl. unfold ext_predict_next; simpl. rewrite Hsc. reflexivity.
  - intros post. reflexivity.
  - do 2 eexists. split; [reflexivity|]. split; [reflexivity|].
    split; [reflexivity|]. split; [reflexivity|].
    intros ws' Hws post. rewrite ext_run. simpl. unfold ext_get_unk_probability. simpl.
    rewrite (proj2 (Z.ltb_ge _ _)); [reflexivity|lia].
Qed.

End Ext.

(** Witness of C8 on the line ["3:-1.0 5:-2.0"] after three words. *)
Lemma ext_length_scores_witness :
  exists c p0, ext_construct (F:=xR) [py_str "3:-1.0 5:-2.0"] = Some c /\
  initialize 0 (CExt c) 0 [] = Some p0 /\
  exists cur mx, nth_error (ext_trg_lengths c) 0 = Some cur /\
    is_Some (cur !! mx) /\ (forall k, is_Some (cur !! k) -> k <= mx) /\
    let p := run_consume p0 [7; 7; 7] in
    let k := Z.of_nat (length [7; 7; 7]) in
    (forall sc, cur !! k = Some sc -> fst (predict_step p) = {[EOS_ID := sc]}) /\
    (cur !! k = None -> fst (predict_step p) = {[EOS_ID := NEG_INF]}) /\
    (forall post, get_unk_probability p post = Some (if k <? mx then fofQ 0 else NEG_INF)) /\
    (exists c1 q0, ext_construct [py_str "3:-1.0 5:-2.0"] = Some c1 /\
       initialize 0 (CExt c1) 0 [] = Some q0 /\
       fst (predict_step (run_consume q0 [7; 7; 7])) = {[EOS_ID := fofQ (-1)]} /\
       fst (predict_step (run_consume q0 [7; 7; 7; 7])) = {[EOS_ID := NEG_INF]} /\
       forall ws', (5 <= length ws')%nat ->
         forall post, get_unk_probability (run_consume q0 ws') post = Some NEG_INF).
Proof.
  do 2 eexists. split; [reflexivity|]. split; [reflexivity|].
  apply (ext_length_scores _ 0 _ [7; 7; 7]). reflexivity.
Defined.

(** ** NgramCountPredictor history *)

Section Ngc.
Context {F : Type} `{PyFloat F}.

Lemma ngc_consume_history (o : ngc_obj (F:=F)) (w : Z) :
  ngc_cur_history (ngc_consume o w) =
    (let h := ngc_cur_history o ++ [w] in
     if (ngc_max_history_len o <? length h)%nat
     then py_tail_slice h (ngc_max_history_len o) else h) /\
  ngc_max_history_len (ngc_consume o w) = ngc_max_history_len o.
Proof. split; reflexivity. Qed.

Lemma ngc_run_unbounded (o : ngc_obj (F:=F)) (ws : list Z) :
  ngc_max_history_len o = 0%nat ->
  exists o', run_consume (PNgc o) ws = PNgc o' /\ ngc_max_history_len o' = 0%nat /\
             ngc_cur_history o' = ngc_cur_history o ++ ws.
Proof.
  unfold run_consume. revert o. induction ws as [|w ws IH]; intros o Ho; simpl.
  - exists o. rewrite app_nil_r. auto.
  - destruct (ngc_consume_history o w) as [Hh Hm].
    destruct (IH (ngc_consume o w)) as (o' & E & Hm' & Hh'); [congruence|].
    exists o'. split; [exact E|]. split; [exact Hm'|].
    rewrite Hh', Hh. cbv zeta. rewrite Ho.
    destruct (0 <? _)%nat; simpl; rewrite <- app_assoc; reflexivity.
Qed.

(** C5 (code bug): with a file of unigrams only, [max_history_len] is 0
    and [cur_history[-0:]] keeps the whole list, so the history grows by
    one token at every [consume]. For [max_history_len >= 1] the bound is
    kept: a history within the bound stays within it. *)
Theorem ngc_history_bound (df : F) :
  (exists o, initialize 0 (CNgc (ngc_unigrams df)) 0 [] = Some (PNgc o) /\
     ngc_max_history_len o = 0%nat /\
     forall ws, exists d, get_state (run_consume (PNgc o) ws) = StNgc (GO_ID :: ws) d) /\
  (forall (o : ngc_obj (F:=F)) (w : Z), (1 <= ngc_max_history_len o)%nat ->
     (length (ngc_cur_history o) <= ngc_max_history_len o)%nat ->
     (length (ngc_cur_history (ngc_consume o w)) <= ngc_max_history_len o)%nat).
Proof.
  split.
  - eexists. split; [reflexivity|]. split; [reflexivity|].
    intros ws. match goal with |- context [run_consume (PNgc ?o) _] =>
      destruct (ngc_run_unbounded o ws eq_refl) as (o' & E & _ & Hh) end.
    rewrite E. simpl. rewrite Hh. eexists. reflexivity.
  - intros o w H1 Hle. destruct (ngc_consume_history o w) as [Hh _]. rewrite Hh. cbv zeta.
    destruct (ngc_max_history_len o <? length (ngc_cur_history o ++ [w]))%nat eqn:E.
    + destruct (ngc_max_history_len o) as [|m] eqn:Em; [lia|].
      unfold py_tail_slice. rewrite length_drop. lia.
    + apply Nat.ltb_ge in E. exact E.
Qed.

End Ngc.

(** ** NgramizePredictor greedy pass *)

Section Ngz.
Context {F : Type} `{PyFloat F}.

Lemma ngz_greedy_eos (sl : array_predictor (F:=F)) (k : nat) (st : ap_state sl) :
  ngz_greedy sl k EOS_ID st = Some ([], []).
Proof. destruct k; reflexivity. Qed.

(** The loop run with [k] values of [l] left, from a [trg_word] other than
    EOS, when the arg-max is not EOS in the first [n] steps and is EOS in
    step [n] (if there is one). *)
Lemma ngz_greedy_steps (sl : array_predictor (F:=F)) (k n : nat) (trg : Z) (st : ap_state sl) :
  trg <> EOS_ID ->
  (forall i, (i < n)%nat -> exists w, argmax (ap_predict_next sl (ap_run sl i st)) = Some w /\ w <> EOS_ID) ->
  ((n < k)%nat -> argmax (ap_predict_next sl (ap_run sl n st)) = Some EOS_ID) ->
  ngz_greedy sl k trg st =
    Some (map (fun i => ap_predict_next sl (ap_run sl i st)) (seq 0 (Nat.min (S n) k)),
          map (fun i => ap_get_unk_probability sl (ap_run sl i st) (ap_predict_next sl (ap_run sl i st)))
              (seq 0 (Nat.min (S n) k))).
Proof.
  revert n trg st. induction k as [|k IH]; intros n trg st Ht Hpre Hstop; [reflexivity|].
  simpl. rewrite (proj2 (Z.eqb_neq _ _) Ht). destruct n as [|n].
  - pose proof (Hstop ltac:(lia)) as Hs. simpl in Hs. rewrite Hs, ngz_greedy_eos. reflexivity.
  - destruct (Hpre 0%nat ltac:(lia)) as (w & Ew & Hw). simpl in Ew. rewrite Ew.
    rewrite (IH n w (ap_consume sl st UNK_ID) Hw).
    + simpl. rewrite <- !seq_shift, !map_map. reflexivity.
    + intros i Hi. exact (Hpre (S i) ltac:(lia)).
    + intros Hn. exact (Hstop ltac:(lia)).
Qed.

(** C6 (code bug): the loop condition [l <= max_len] admits
    [K = max_len + 1] steps, with [max_len = max_len_factor *
    len(src_sentence)] (no step when [K] is not positive). When the
    slave's arg-max is not EOS in the first [n] steps and is EOS in step
    [n] (or [n >= K]), [initialize] records the first [min(n + 1, K)]
    posteriors of the slave and their unk scores: the stop at EOS comes
    after recording the EOS step, and without EOS [K] entries are
    recorded. *)
Theorem ngz_initialize_steps (c : ngz_cfg (F:=F)) (sid : nat) (src : list Z) (n : nat) :
  let sl := ngz_slave c in
  let st0 := ap_initialize sl sid src in
  let K := Z.to_nat (ngz_max_len_factor c * Z.of_nat (length src) + 1) in
  (forall i, (i < n)%nat ->
     exists w, argmax (ap_predict_next sl (ap_run sl i st0)) = Some w /\ w <> EOS_ID) ->
  ((n < K)%nat -> argmax (ap_predict_next sl (ap_run sl n st0)) = Some EOS_ID) ->
  exists o, ngz_initialize c sid src = Some o /\
    ngz_scores o = map (fun i => ap_predict_next sl (ap_run sl i st0)) (seq 0 (Nat.min (S n) K)) /\
    ngz_unk_scores o =
      map (fun i => ap_get_unk_probability sl (ap_run sl i st0) (ap_predict_next sl (ap_run sl i st0)))
          (seq 0 (Nat.min (S n) K)) /\
    length (ngz_scores o) = Nat.min (S n) K.
Proof.
  cbv zeta. intros Hpre Hstop. unfold ngz_initialize.
  rewrite (ngz_greedy_steps _ _ n (-1) _ ltac:(unfold EOS_ID; lia) Hpre Hstop).
  eexists. split; [reflexivity|]. simpl. split; [reflexivity|]. split; [reflexivity|].
  rewrite length_map, length_seq. reflexivity.
Qed.

End Ngz.

(** Witness of C6 with [max_len_factor = 1] and a one-word source
    sentence ([max_len = 1]): a slave whose arg-max is always 0 gets two
    posteriors recorded; a slave whose arg-max is always EOS gets one. *)
Lemma ngz_initialize_steps_witness :
  (exists c o, ngz_construct 1 1 1 const_slave = Some c /\ ngz_initialize c 0 [3] = Some o /\
     ngz_scores o = [[fofQ 0]; [fofQ 0]] /\ length (ngz_scores o) = 2%nat) /\
  (exists c o, ngz_construct 1 1 1 eos_slave = Some c /\ ngz_initialize c 0 [3] = Some o /\
     ngz_scores o = [[fofQ 0; fofQ 0; fofQ 1]] /\ length (ngz_scores o) = 1%nat).
Proof.
  split.
  - set (c := {| ngz_min_order := 1; ngz_max_history_length := 0;
                 ngz_max_len_factor := 1; ngz_slave := const_slave |}).
    destruct (ngz_initialize_steps c 0 [3] 2) as (o & Ho & Hs & _ & Hl).
    + intros i _. exists 0. split; [reflexivity|unfold EOS_ID; lia].
    + simpl. lia.
    + exists c, o. split; [reflexivity|]. split; [exact Ho|]. split; [exact Hs|exact Hl].
  - set (c := {| ngz_min_order := 1; ngz_max_history_length := 0;
                 ngz_max_len_factor := 1; ngz_slave := eos_slave |}).
    destruct (ngz_initialize_steps c 0 [3] 0) as (o & Ho & Hs & _ & Hl).
    + intros i Hi. lia.
    + intros _. vm_compute. change R1 with 1%R. change R0 with 0%R.
      rewrite Rinv_1, Rmult_0_l, Rmult_1_l.
      destruct (Rlt_dec 0 0) as [Hn|_]; [lra|].
      destruct (Rlt_dec 0 1) as [_|Hn]; [reflexivity|lra].
    + exists c, o. split; [reflexivity|]. split; [exact Ho|]. split; [exact Hs|exact Hl].
Defined.

(** C6 counterexample: [max_len_factor = 1] and a one-word source sentence
    give [max_len = 1], but two posteriors are recorded. *)
Lemma ngz_initialize_steps_counterexample :
  exists c o, ngz_construct 1 1 1 const_slave = Some c /\
    ngz_initialize c 0 [3] = Some o /\
    ngz_max_len_factor c * Z.of_nat (length [3]) = 1 /\
    length (ngz_scores o) = 2%nat.
Proof. do 2 eexists. split; [reflexivity|]. split; [reflexivity|]. split; reflexivity. Qed.

(** ** Further properties of the predictors *)

Section Ngc_more.
Context {F : Type} `{PyFloat F}.




















End Ngc_more.




Section Ngc_disc.
Context {F : Type} `{PyFloat F}.




End Ngc_disc.



Section Unk_more.
Context {F : Type} `{PyFloat F}.





End Unk_more.




Section Unk_lambda.
Context {F : Type} `{PyFloat F}.

End Unk_lambda.

Section Pois_xR.
Variable lg : R -> R.
Local Abbreviation xF := (xR_float lg).


End Pois_xR.




Section Ngz_more.
Context {F : Type} `{PyFloat F}.







End Ngz_more.




Section WC_more.
Context {F : Type} `{PyFloat F}.





End WC_more.





Section Ext_more.
Context {F : Type} `{PyFloat F}.





End Ext_more.



Section NB_more.
Context {F : Type} `{PyFloat F}.


End NB_more.

Section NB_xR.
Variable lg : R -> R.
Local Abbreviation xF := (xR_float lg).





End NB_xR.




Section NB_peak.
Variable lg : R -> R.
Local Abbreviation xF := (xR_float lg).
Variables r p : xR.
Local Abbreviation np := (@nb_eos_point_prob xR xF r p).
Hypothesis Hfin : forall n, 1 <= n -> exists x, np n = XF x.


End NB_peak.



